(** * pymasker: bit-field masks over quality-assessment bands

    A shallow embedding of [pymasker.py] and the properties of its
    bit-extraction and mask-composition code.

    Modelling conventions.
    - A 2-D numpy array is a list of rows ([ndarray]).  Cells are
      mathematical integers ([Z]); numpy's bitwise [&] on integers is
      [Z.land] (two's complement).  The list does not carry the dtype of
      the array: [a & k] is modelled where the constant [k] fits the dtype
      of [a].  The constants of the Landsat and MODIS methods are at most
      [3 << 14] and fit a 16-bit band; for [Masker.get_mask], whose field
      is an argument, the properties state the dtype of the band
      ([of_dtype]) and that the range mask fits it ([fits]).  Where the
      mask does not fit, numpy raises or promotes, depending on its
      version; that is outside the model.
    - Every numpy operation of the source builds a new array; the only
      object state is the pair of attributes [file_path], [band_data] of
      the masker, threaded explicitly through each method ([M]).
    - Python exceptions are an error result ([Raise]).
    - Reading and writing raster files (gdal) is outside the model: the
      array that the raster library would read is an argument.  Without
      an input path there is nothing to read: [band_data] is [None] and
      the first [band_data & pos_value] raises [TypeError]. *)

From Stdlib Require Import ZArith List String Ascii Bool Lia Permutation.
Import ListNotations.

Local Open Scope string_scope.
Local Open Scope Z_scope.

(** ** Python values, exceptions and builtins *)

(** The exception classes the source can raise: [ValueError] comes from the
    builtins [int(_, 2)] and [<<], [KeyError] from a dict lookup,
    [TypeError] from [None & pos_value] when no band was loaded, and
    [Exception msg] from the two [raise Exception(...)] of [main]. *)
Inductive exn : Type :=
| ValueError
| KeyError
| TypeError
| Exception (msg : string).

Definition exn_class (e : exn) : string :=
  match e with
  | ValueError => "ValueError"
  | KeyError => "KeyError"
  | TypeError => "TypeError"
  | Exception _ => "Exception"
  end.

Inductive result (A : Type) : Type :=
| Ok (a : A)
| Raise (e : exn).
Arguments Ok {A} a.
Arguments Raise {A} e.

(** The [value] argument of [Masker.get_mask] is an int or a str. *)
Inductive pyval : Type :=
| PyInt (z : Z)
| PyStr (s : string).

(** [str(x)] for an optional command-line argument ([None] prints as None). *)
Definition str_of (o : option string) : string :=
  match o with
  | Some s => s
  | None => "None"
  end.

(** [c * n] for a one-character string [c]: empty when [n <= 0]. *)
Definition str_mul (c : ascii) (n : Z) : string :=
  string_of_list_ascii (repeat c (Z.to_nat n)).

(** *** [int(s, 2)]

    Python 3 grammar on ASCII text: surrounding whitespace (the codes 9 to
    13 and the space, 32) is stripped, then an optional sign, an optional
    [0b]/[0B] prefix (which may be followed by one underscore), then binary
    digits separated by single underscores. *)
Definition is_space (c : ascii) : bool :=
  let n := N_of_ascii c in
  ((9 <=? n) && (n <=? 13) || (n =? 32))%N.

Fixpoint lstrip (l : list ascii) : list ascii :=
  match l with
  | c :: r => if is_space c then lstrip r else l
  | [] => []
  end.

Definition strip (l : list ascii) : list ascii :=
  rev (lstrip (rev (lstrip l))).

Fixpoint digits2 (after_underscore : bool) (acc : Z) (l : list ascii)
  : option Z :=
  match l with
  | [] => if after_underscore then None else Some acc
  | c :: r =>
      if Ascii.eqb c "0" then digits2 false (2 * acc) r
      else if Ascii.eqb c "1" then digits2 false (2 * acc + 1) r
      else if Ascii.eqb c "_" then
             if after_underscore then None else digits2 true acc r
      else None
  end.

Definition skip_sign (l : list ascii) : bool * list ascii :=
  match l with
  | c :: r =>
      if Ascii.eqb c "-" then (true, r)
      else if Ascii.eqb c "+" then (false, r)
      else (false, l)
  | [] => (false, l)
  end.

Definition skip_prefix (l : list ascii) : list ascii :=
  match l with
  | z :: b :: r =>
      if Ascii.eqb z "0" && (Ascii.eqb b "b" || Ascii.eqb b "B") then
        match r with
        | u :: r' => if Ascii.eqb u "_" then r' else r
        | [] => r
        end
      else l
  | _ => l
  end.

Definition int_base2 (s : string) : result Z :=
  let (neg, l) := skip_sign (strip (list_ascii_of_string s)) in
  match skip_prefix l with
  | [] => Raise ValueError
  | c :: r =>
      if Ascii.eqb c "_" then Raise ValueError
      else match digits2 false 0 (c :: r) with
           | Some n => Ok (if neg then - n else n)
           | None => Raise ValueError
           end
  end.

(** [a << n] on Python ints: a negative shift count raises [ValueError]. *)
Definition lshift (a n : Z) : result Z :=
  if n <? 0 then Raise ValueError else Ok (Z.shiftl a n).

(** [d[k]] on a dict with str keys; a missing key (also [None]) raises
    [KeyError]. *)
Fixpoint dict_get {A : Type} (d : list (string * A)) (k : option string)
  : result A :=
  match d with
  | [] => Raise KeyError
  | (k', v) :: d' =>
      match k with
      | Some s => if String.eqb s k' then Ok v else dict_get d' k
      | None => Raise KeyError
      end
  end.

(** ** numpy arrays *)

Definition ndarray (A : Type) : Type := list (list A).

Definition np_map {A B : Type} (f : A -> B) (a : ndarray A) : ndarray B :=
  map (map f) a.

Fixpoint zip_with {A B C : Type} (f : A -> B -> C) (l : list A) (l' : list B)
  : list C :=
  match l, l' with
  | x :: r, y :: r' => f x y :: zip_with f r r'
  | _, _ => []
  end.

(** Element-wise binary operation; the source only combines arrays derived
    from the same [band_data], hence of one shape. *)
Definition np_map2 {A B C : Type} (f : A -> B -> C)
  (a : ndarray A) (b : ndarray B) : ndarray C :=
  zip_with (zip_with f) a b.

Definition cell_at {A : Type} (a : ndarray A) (i j : nat) : option A :=
  match nth_error a i with
  | Some row => nth_error row j
  | None => None
  end.

Module np.
(** [a & k], for a constant [k] that fits the dtype of [a] *)
Definition bitwise_and (a : ndarray Z) (k : Z) : ndarray Z :=
  np_map (fun x => Z.land x k) a.
(** [a == k] *)
Definition equal (a : ndarray Z) (k : Z) : ndarray bool :=
  np_map (fun x => x =? k) a.
(** [a >= k] *)
Definition greater_equal (a : ndarray Z) (k : Z) : ndarray bool :=
  np_map (fun x => k <=? x) a.
(** [a < k] *)
Definition less (a : ndarray Z) (k : Z) : ndarray bool :=
  np_map (fun x => x <? k) a.
Definition logical_and (a b : ndarray bool) : ndarray bool :=
  np_map2 andb a b.
Definition logical_or (a b : ndarray bool) : ndarray bool :=
  np_map2 orb a b.
(** [a.astype(int)] on a boolean array *)
Definition astype_int (a : ndarray bool) : ndarray Z :=
  np_map (fun b : bool => if b then 1 else 0) a.
(** [a.astype(int)] on an integer array: a copy *)
Definition astype_int_of_int (a : ndarray Z) : ndarray Z :=
  np_map (fun x : Z => x) a.
End np.

(** ** The masker object and its methods *)

Record masker : Type := mk_masker {
  file_path : option string;
  band_data : ndarray Z
}.

(** A method takes [self] and returns its result (or the exception raised)
    together with [self] afterwards. *)
Definition M (A : Type) : Type := masker -> result A * masker.

Definition ret {A : Type} (a : A) : M A := fun self => (Ok a, self).

Definition bind {A B : Type} (m : M A) (k : A -> M B) : M B :=
  fun self =>
    match m self with
    | (Ok a, self') => k a self'
    | (Raise e, self') => (Raise e, self')
    end.

Definition lift {A : Type} (r : result A) : M A := fun self => (r, self).

Definition get_band_data : M (ndarray Z) :=
  fun self => (Ok (band_data self), self).

Definition set_attrs (fp : option string) (a : ndarray Z) : M unit :=
  fun _ => (Ok tt, mk_masker fp a).

Notation "x <- m ;; k" := (bind m (fun x => k))
  (at level 61, m at next level, right associativity).

Fixpoint for_each {A S : Type} (l : list A) (body : A -> S -> M S) (acc : S)
  : M S :=
  match l with
  | [] => ret acc
  | x :: r => acc' <- body x acc ;; for_each r body acc'
  end.

Module Masker.

Definition load_data (array : ndarray Z) : M unit :=
  set_attrs None array.

(** [Masker(band)] for an array [band]. *)
Definition init (band : ndarray Z) : masker := mk_masker None band.

Definition get_mask (bit_pos bit_len : Z) (value : pyval)
  : M (ndarray Z) :=
  bitlen <- lift (int_base2 (str_mul "1" bit_len)) ;;
  value <- lift (match value with
                 | PyStr s => int_base2 s
                 | PyInt z => Ok z
                 end) ;;
  pos_value <- lift (lshift bitlen bit_pos) ;;
  con_value <- lift (lshift value bit_pos) ;;
  band <- get_band_data ;;
  let mask := np.equal (np.bitwise_and band pos_value) con_value in
  ret (np.astype_int mask).

End Masker.

Module LandsatConfidence.
Definition high : Z := 3.
Definition medium : Z := 2.
Definition low : Z := 1.
Definition undefined : Z := 0.
Definition none : Z := -1.
End LandsatConfidence.

Module LandsatMasker.

Definition __get_mask (bit_loc bit_len value : Z) (cumulative : bool)
  : M (ndarray bool) :=
  pos_value <- lift (lshift bit_len bit_loc) ;;
  con_value <- lift (lshift value bit_loc) ;;
  band <- get_band_data ;;
  if cumulative
  then ret (np.greater_equal (np.bitwise_and band pos_value) con_value)
  else ret (np.equal (np.bitwise_and band pos_value) con_value).

Definition get_cloud_mask (conf : Z) (cumulative : bool) : M (ndarray Z) :=
  mask <- __get_mask 14 3 conf cumulative ;; ret (np.astype_int mask).

Definition get_cirrus_mask (conf : Z) (cumulative : bool) : M (ndarray Z) :=
  mask <- __get_mask 12 3 conf cumulative ;; ret (np.astype_int mask).

Definition get_veg_mask (conf : Z) (cumulative : bool) : M (ndarray Z) :=
  mask <- __get_mask 8 3 conf cumulative ;; ret (np.astype_int mask).

Definition get_water_mask (conf : Z) (cumulative : bool) : M (ndarray Z) :=
  mask <- __get_mask 4 3 conf cumulative ;; ret (np.astype_int mask).

Definition get_snow_mask (conf : Z) (cumulative : bool) : M (ndarray Z) :=
  mask <- __get_mask 10 3 conf cumulative ;; ret (np.astype_int mask).

Definition get_fill_mask : M (ndarray bool) :=
  __get_mask 0 1 1 false.

(** The rows of [tasks]: bit location, confidence level, cumulative flag. *)
Definition task : Type := Z * Z * bool.

Definition tasks (cloud : Z) (cloud_cum : bool) (cirrus : Z)
  (cirrus_cum : bool) (snow : Z) (snow_cum : bool) (veg : Z)
  (veg_cum : bool) (water : Z) (water_cum : bool) : list task :=
  [ (8, veg, veg_cum);
    (10, snow, snow_cum);
    (12, cirrus, cirrus_cum);
    (14, cloud, cloud_cum);
    (4, water, water_cum) ].

(** The body of the [for task in tasks] loop. *)
Definition fold_task (inclusive : bool) (t : task)
  (final_mask : ndarray bool) : M (ndarray bool) :=
  let '(loc, level, cum) := t in
  mask <- __get_mask loc 3 level cum ;;
  if inclusive
  then ret (np.logical_or final_mask mask)
  else ret (np.logical_and final_mask mask).

Definition basic_mask (inclusive : bool) : M (ndarray bool) :=
  band <- get_band_data ;;
  if inclusive then ret (np.less band 0)
  else ret (np.greater_equal band 0).

Definition get_multi_mask (cloud : Z) (cloud_cum : bool) (cirrus : Z)
  (cirrus_cum : bool) (snow : Z) (snow_cum : bool) (veg : Z)
  (veg_cum : bool) (water : Z) (water_cum : bool) (inclusive : bool)
  : M (ndarray Z) :=
  final_mask <- basic_mask inclusive ;;
  final_mask <- for_each
                  (tasks cloud cloud_cum cirrus cirrus_cum snow snow_cum
                     veg veg_cum water water_cum)
                  (fold_task inclusive) final_mask ;;
  ret (np.astype_int final_mask).

End LandsatMasker.

Module ModisQuality.
Definition high : Z := 0.
Definition medium : Z := 1.
Definition low : Z := 2.
Definition low_cloud : Z := 3.
End ModisQuality.

Module ModisMasker.

Definition get_qa_mask (quality : Z) : M (ndarray Z) :=
  mask <- Masker.get_mask 0 2 (PyInt quality) ;;
  ret (np.astype_int_of_int mask).

End ModisMasker.

(** ** The command-line entry point *)

Record args : Type := mk_args {
  source : option string;
  input : option string;
  output : option string;
  confidence : option string;
  target : option string;
  quality : option string
}.

Definition conf_value : list (string * Z) :=
  [ ("high", LandsatConfidence.high);
    ("medium", LandsatConfidence.medium);
    ("low", LandsatConfidence.low);
    ("undefined", LandsatConfidence.undefined);
    ("none", LandsatConfidence.none) ].

Definition quality_value : list (string * Z) :=
  [ ("high", ModisQuality.high);
    ("medium", ModisQuality.medium);
    ("low", ModisQuality.low);
    ("low_cloud", ModisQuality.low_cloud) ].

Definition is_str (o : option string) (s : string) : bool :=
  match o with
  | Some s' => String.eqb s' s
  | None => false
  end.

(** A method called on the object that [main] builds from [a.(input)].
    With a path, [__init__] takes [load_file] and [band_data] is the array
    read, [loaded].  Without one ([None] is not a str), [__init__] takes
    [load_data(None)]: [band_data] is [None], and the method's
    [self.band_data & pos_value], which the preceding shifts of constants
    always reach, raises [TypeError]. *)
Definition on_input {A : Type} (a_input : option string)
  (loaded : ndarray Z) (method : M A) : result A :=
  match a_input with
  | Some _ => fst (method (Masker.init loaded))
  | None => Raise TypeError
  end.

(** [main] after argument parsing.  [loaded] is the array the raster library
    reads from [a.(input)]; the result is the mask handed to [save_tif]. *)
Definition main (a : args) (loaded : ndarray Z) : result (ndarray Z) :=
  if is_str (source a) "landsat" then
    let query (get : Z -> bool -> M (ndarray Z)) : result (ndarray Z) :=
      match dict_get conf_value (confidence a) with
      | Ok conf => on_input (input a) loaded (get conf false)
      | Raise e => Raise e
      end in
    if is_str (target a) "cloud" then query LandsatMasker.get_cloud_mask
    else if is_str (target a) "cirrus" then query LandsatMasker.get_cirrus_mask
    else if is_str (target a) "water" then query LandsatMasker.get_water_mask
    else if is_str (target a) "vegetation" then
           query LandsatMasker.get_veg_mask
    else if is_str (target a) "snow" then query LandsatMasker.get_snow_mask
    else Raise (Exception ("Masker type " ++ str_of (target a)
                             ++ " is unrecongized."))
  else if is_str (source a) "modis" then
    match dict_get quality_value (quality a) with
    | Ok q => on_input (input a) loaded (ModisMasker.get_qa_mask q)
    | Raise e => Raise e
    end
  else Raise (Exception ("Given source " ++ str_of (source a)
                           ++ " is unrecongized.")).

(** ** Vocabulary of the properties *)

(** The test [Masker.get_mask] applies to a cell. *)
Definition get_mask_cell (bit_pos bit_len value c : Z) : bool :=
  Z.land c (Z.shiftl (Z.ones bit_len) bit_pos) =? Z.shiftl value bit_pos.

(** The test [LandsatMasker.__get_mask] applies to a cell. *)
Definition landsat_cell (bit_loc bit_len value : Z) (cumulative : bool)
  (c : Z) : bool :=
  if cumulative
  then Z.shiftl value bit_loc <=? Z.land c (Z.shiftl bit_len bit_loc)
  else Z.land c (Z.shiftl bit_len bit_loc) =? Z.shiftl value bit_loc.

Definition int_of_bool (b : bool) : Z := if b then 1 else 0.

(** The integer value of the bits of [c] at positions [[p, p + w)]. *)
Definition field_value (c p w : Z) : Z :=
  Z.land (Z.shiftr c p) (Z.ones w).

(** The bits of [c] at positions [[p, p + w)] are the [w] low bits of [v]:
    [v] in binary, zero-padded or truncated to [w] bits. *)
Definition bits_equal (c p w v : Z) : Prop :=
  forall i, 0 <= i < w -> Z.testbit c (p + i) = Z.testbit v i.

(** The five condition getters of [LandsatMasker]. *)
Definition condition_getters : list (Z -> bool -> M (ndarray Z)) :=
  [ LandsatMasker.get_cloud_mask;
    LandsatMasker.get_cirrus_mask;
    LandsatMasker.get_snow_mask;
    LandsatMasker.get_veg_mask;
    LandsatMasker.get_water_mask ].

Definition combine (inclusive : bool) : bool -> bool -> bool :=
  if inclusive then orb else andb.

(** The start value of [final_mask] at a cell. *)
Definition basic_cell (inclusive : bool) (c : Z) : bool :=
  if inclusive then c <? 0 else 0 <=? c.

(** One turn of the loop of [get_multi_mask] at a cell. *)
Definition task_cell (inclusive : bool) (c : Z) (acc : bool)
  (t : LandsatMasker.task) : bool :=
  let '(loc, level, cum) := t in
  combine inclusive acc (landsat_cell loc 3 level cum c).

Definition task_loc (t : LandsatMasker.task) : Z := fst (fst t).

(** The array-level fold of a list of masks into a start mask. *)
Definition fold_masks (inclusive : bool) (start : ndarray bool)
  (masks : list (ndarray bool)) : ndarray bool :=
  fold_left (if inclusive then np.logical_or else np.logical_and)
    masks start.

(** [mask] is what the extraction of task [t] returns on [self]. *)
Definition condition_mask (self : masker) (t : LandsatMasker.task)
  (mask : ndarray bool) : Prop :=
  let '(loc, level, cum) := t in
  fst (LandsatMasker.__get_mask loc 3 level cum self) = Ok mask.

(** The target names that [main] dispatches on. *)
Definition landsat_targets : list string :=
  ["cloud"; "cirrus"; "water"; "vegetation"; "snow"].

Definition known_target (o : option string) : bool :=
  existsb (is_str o) landsat_targets.

(** A mask query on a masker object. *)
Inductive query : Type :=
| Q_get_mask (bit_pos bit_len : Z) (value : pyval)
| Q_get_cloud_mask (conf : Z) (cumulative : bool)
| Q_get_cirrus_mask (conf : Z) (cumulative : bool)
| Q_get_veg_mask (conf : Z) (cumulative : bool)
| Q_get_water_mask (conf : Z) (cumulative : bool)
| Q_get_snow_mask (conf : Z) (cumulative : bool)
| Q_get_fill_mask
| Q_get_multi_mask (cloud : Z) (cloud_cum : bool) (cirrus : Z)
    (cirrus_cum : bool) (snow : Z) (snow_cum : bool) (veg : Z)
    (veg_cum : bool) (water : Z) (water_cum : bool) (inclusive : bool)
| Q_private_get_mask (bit_loc bit_len value : Z) (cumulative : bool)
| Q_get_qa_mask (quality : Z).

Inductive mask : Type :=
| IntMask (a : ndarray Z)
| BoolMask (a : ndarray bool).

Definition run_query (q : query) : M mask :=
  match q with
  | Q_get_mask p w v => m <- Masker.get_mask p w v ;; ret (IntMask m)
  | Q_get_cloud_mask conf cum =>
      m <- LandsatMasker.get_cloud_mask conf cum ;; ret (IntMask m)
  | Q_get_cirrus_mask conf cum =>
      m <- LandsatMasker.get_cirrus_mask conf cum ;; ret (IntMask m)
  | Q_get_veg_mask conf cum =>
      m <- LandsatMasker.get_veg_mask conf cum ;; ret (IntMask m)
  | Q_get_water_mask conf cum =>
      m <- LandsatMasker.get_water_mask conf cum ;; ret (IntMask m)
  | Q_get_snow_mask conf cum =>
      m <- LandsatMasker.get_snow_mask conf cum ;; ret (IntMask m)
  | Q_get_fill_mask => m <- LandsatMasker.get_fill_mask ;; ret (BoolMask m)
  | Q_get_multi_mask cloud cloud_cum cirrus cirrus_cum snow snow_cum veg
      veg_cum water water_cum inclusive =>
      m <- LandsatMasker.get_multi_mask cloud cloud_cum cirrus cirrus_cum
             snow snow_cum veg veg_cum water water_cum inclusive ;;
      ret (IntMask m)
  | Q_private_get_mask loc len v cum =>
      m <- LandsatMasker.__get_mask loc len v cum ;; ret (BoolMask m)
  | Q_get_qa_mask quality =>
      m <- ModisMasker.get_qa_mask quality ;; ret (IntMask m)
  end.

(** A computation that returns the object as it received it. *)
Definition readonly {A : Type} (m : M A) : Prop :=
  forall self, snd (m self) = self.

(** ** Further vocabulary *)

(** [a.shape], as the list of the row lengths. *)
Definition shape {A : Type} (a : ndarray A) : list nat :=
  map (@List.length A) a.

(** The cell of a returned mask, when a mask was returned. *)
Definition mask_cell {A : Type} (r : result (ndarray A)) (i j : nat)
  : option A :=
  match r with
  | Ok m => cell_at m i j
  | Raise _ => None
  end.

(** The comparison of a field value [f] with a level: [>=] when cumulative,
    [==] otherwise. *)
Definition level_test (cumulative : bool) (level f : Z) : bool :=
  if cumulative then level <=? f else f =? level.

(** The condition getters with the bit location each one passes on. *)
Definition getter_locs : list ((Z -> bool -> M (ndarray Z)) * Z) :=
  [ (LandsatMasker.get_cloud_mask, 14);
    (LandsatMasker.get_cirrus_mask, 12);
    (LandsatMasker.get_snow_mask, 10);
    (LandsatMasker.get_veg_mask, 8);
    (LandsatMasker.get_water_mask, 4) ].

(** A str of binary digits, most significant first, and the number it
    denotes. *)
Definition digit_char (b : bool) : ascii := if b then "1"%char else "0"%char.

Definition bits_string (bs : list bool) : string :=
  string_of_list_ascii (map digit_char bs).

Definition bits_value (bs : list bool) : Z :=
  fold_left (fun acc (b : bool) => 2 * acc + (if b then 1 else 0)) bs 0.

(** [k in d] for a dict with str keys. *)
Definition has_key {A : Type} (d : list (string * A)) (k : option string)
  : bool :=
  existsb (is_str k) (map fst d).

(** The bit location behind each target name of [main]. *)
Definition target_loc (o : option string) : option Z :=
  if is_str o "cloud" then Some 14
  else if is_str o "cirrus" then Some 12
  else if is_str o "water" then Some 4
  else if is_str o "vegetation" then Some 8
  else if is_str o "snow" then Some 10
  else None.

(** An input path was given. *)
Definition has_input (a : args) : bool :=
  match input a with
  | Some _ => true
  | None => false
  end.

(** The arguments with which [main] gets as far as [save_tif]. *)
Definition main_ok (a : args) : bool :=
  has_input a
  && (is_str (source a) "landsat" && known_target (target a)
        && has_key conf_value (confidence a)
      || is_str (source a) "modis" && has_key quality_value (quality a)).

(** The integer dtypes of numpy, with the least and the greatest value of
    each. *)
Inductive dtype : Type :=
| uint8 | uint16 | uint32 | uint64
| int8 | int16 | int32 | int64.

Definition dtype_min (d : dtype) : Z :=
  match d with
  | uint8 | uint16 | uint32 | uint64 => 0
  | int8 => - 2 ^ 7
  | int16 => - 2 ^ 15
  | int32 => - 2 ^ 31
  | int64 => - 2 ^ 63
  end.

Definition dtype_max (d : dtype) : Z :=
  match d with
  | uint8 => 2 ^ 8 - 1
  | uint16 => 2 ^ 16 - 1
  | uint32 => 2 ^ 32 - 1
  | uint64 => 2 ^ 64 - 1
  | int8 => 2 ^ 7 - 1
  | int16 => 2 ^ 15 - 1
  | int32 => 2 ^ 31 - 1
  | int64 => 2 ^ 63 - 1
  end.

(** The constant [k] is a value of the dtype [d]: numpy takes it to [d] in
    [a & k] without raising and without promoting. *)
Definition fits (d : dtype) (k : Z) : Prop :=
  dtype_min d <= k <= dtype_max d.

(** [a] is an array of dtype [d]: every cell is a value of [d]. *)
Definition of_dtype (d : dtype) (a : ndarray Z) : Prop :=
  Forall (Forall (fits d)) a.

(** [k] is a signed 64-bit value; numpy compares an integer array with
    such a constant exactly, whatever the dtype of the array. *)
Definition int64_range (k : Z) : Prop :=
  - 2 ^ 63 <= k < 2 ^ 63.

(** Every cell of the array is non-negative (an unsigned band). *)
Definition nonneg_cells (a : ndarray Z) : Prop :=
  Forall (Forall (fun c => 0 <= c)) a.

Definition binary_cells (a : ndarray Z) : Prop :=
  Forall (Forall (fun x => x = 0 \/ x = 1)) a.

(** The value of [final_mask] at a cell with two-bit fields [veg], [snow],
    [cirrus], [cloud], [water] already tested. *)
Definition multi_cell (inclusive : bool) (c : Z)
  (veg snow cirrus cloud water : bool) : bool :=
  if inclusive
  then (c <? 0) || veg || snow || cirrus || cloud || water
  else (0 <=? c) && veg && snow && cirrus && cloud && water.

Definition mask_shape (mk : mask) : list nat :=
  match mk with
  | IntMask m => shape m
  | BoolMask m => shape m
  end.

(** [mk] is computed cell by cell from [band]: a boolean test of each
    cell, as 0/1 for an int mask. *)
Definition indicator_of (band : ndarray Z) (mk : mask) : Prop :=
  match mk with
  | IntMask m =>
      exists g : Z -> bool, m = np_map (fun c => int_of_bool (g c)) band
  | BoolMask m => exists g : Z -> bool, m = np_map g band
  end.

(** The queries whose bit field is fixed by the code. *)
Definition fixed_field (q : query) : bool :=
  match q with
  | Q_get_mask _ _ _ => false
  | Q_private_get_mask _ _ _ _ => false
  | _ => true
  end.

(** * Properties *)

(** ** The builtins *)

Lemma rev_repeat {A : Type} (x : A) (n : nat) : rev (repeat x n) = repeat x n.
Proof.
  induction n as [|n IH]; simpl; [reflexivity|].
  rewrite IH. clear IH.
  induction n as [|n IH]; simpl; [reflexivity|]. now rewrite IH.
Qed.

Lemma lstrip_ones (n : nat) : lstrip (repeat "1"%char n) = repeat "1"%char n.
Proof. destruct n; reflexivity. Qed.

Lemma strip_ones (n : nat) : strip (repeat "1"%char n) = repeat "1"%char n.
Proof.
  unfold strip. now rewrite lstrip_ones, rev_repeat, lstrip_ones, rev_repeat.
Qed.

Lemma digits2_ones (n : nat) (acc : Z) :
  digits2 false acc (repeat "1"%char n)
  = Some (acc * 2 ^ Z.of_nat n + Z.ones (Z.of_nat n)).
Proof.
  revert acc. induction n as [|n IH]; intros acc.
  - cbn [repeat digits2 Z.of_nat]. f_equal.
    change (Z.ones 0) with 0. change (2 ^ 0) with 1. lia.
  - change (repeat "1"%char (S n)) with ("1"%char :: repeat "1"%char n).
    cbn [digits2]. change (Ascii.eqb "1" "0") with false.
    change (Ascii.eqb "1" "1") with true. cbv iota.
    rewrite IH. f_equal.
    rewrite !Z.ones_equiv, Nat2Z.inj_succ, Z.pow_succ_r by lia. lia.
Qed.

(** [int('1' * n, 2)] is the all-ones number of [n] bits when [n >= 1]. *)
Lemma int_base2_ones (n : Z) :
  1 <= n -> int_base2 (str_mul "1" n) = Ok (Z.ones n).
Proof.
  intros Hn. unfold int_base2, str_mul.
  rewrite list_ascii_of_string_of_list_ascii, strip_ones.
  destruct (Z.to_nat n) as [|k] eqn:Hk; [lia|].
  change (repeat "1"%char (S k)) with ("1"%char :: repeat "1"%char k).
  assert (Hp : skip_prefix ("1"%char :: repeat "1"%char k)
               = "1"%char :: repeat "1"%char k) by (destruct k; reflexivity).
  cbn [skip_sign]. change (Ascii.eqb "1" "-") with false.
  change (Ascii.eqb "1" "+") with false. cbv iota.
  rewrite Hp. change (Ascii.eqb "1" "_") with false. cbv iota.
  change ("1"%char :: repeat "1"%char k) with (repeat "1"%char (S k)).
  rewrite digits2_ones, <- Hk, Z2Nat.id by lia. reflexivity.
Qed.


Lemma lshift_ok (a n : Z) : 0 <= n -> lshift a n = Ok (Z.shiftl a n).
Proof.
  intros Hn. unfold lshift. destruct (Z.ltb_spec n 0); [lia|reflexivity].
Qed.

(** ** Arrays *)

Lemma cell_at_np_map {A B : Type} (f : A -> B) (a : ndarray A) (i j : nat) :
  cell_at (np_map f a) i j = option_map f (cell_at a i j).
Proof.
  unfold cell_at, np_map. rewrite nth_error_map.
  destruct (nth_error a i) as [row|]; simpl; [|reflexivity].
  apply nth_error_map.
Qed.

Lemma np_map_np_map {A B C : Type} (f : A -> B) (g : B -> C) (a : ndarray A) :
  np_map g (np_map f a) = np_map (fun x => g (f x)) a.
Proof.
  unfold np_map. rewrite map_map. apply map_ext. intros row. apply map_map.
Qed.

Lemma np_map_ext {A B : Type} (f g : A -> B) (a : ndarray A) :
  (forall x, f x = g x) -> np_map f a = np_map g a.
Proof.
  intros H. unfold np_map. apply map_ext. intros row. now apply map_ext.
Qed.

(** ** What the two extraction methods compute *)

Lemma get_mask_run (self : masker) (p w v : Z) :
  0 <= p -> 1 <= w ->
  Masker.get_mask p w (PyInt v) self
  = (Ok (np_map (fun c => int_of_bool (get_mask_cell p w v c))
           (band_data self)), self).
Proof.
  intros Hp Hw. unfold Masker.get_mask, bind, lift, ret, get_band_data.
  rewrite int_base2_ones, !lshift_ok by assumption.
  unfold np.astype_int, np.equal, np.bitwise_and.
  now rewrite !np_map_np_map.
Qed.

Lemma landsat_get_mask_run (self : masker) (loc len v : Z) (cum : bool) :
  0 <= loc ->
  LandsatMasker.__get_mask loc len v cum self
  = (Ok (np_map (landsat_cell loc len v cum) (band_data self)), self).
Proof.
  intros Hp. unfold LandsatMasker.__get_mask, bind, lift, ret, get_band_data.
  rewrite !lshift_ok by assumption.
  unfold landsat_cell, np.greater_equal, np.equal, np.bitwise_and.
  destruct cum; now rewrite np_map_np_map.
Qed.

(** ** Bit fields *)

Lemma land_range_mask (c p w : Z) :
  0 <= p ->
  Z.land c (Z.shiftl (Z.ones w) p) = Z.shiftl (field_value c p w) p.
Proof.
  intros Hp. unfold field_value. apply Z.bits_inj'. intros n Hn.
  rewrite Z.land_spec, !Z.shiftl_spec, Z.land_spec by assumption.
  destruct (Z.lt_ge_cases n p) as [Hlt|Hge].
  - rewrite !(Z.testbit_neg_r _ (n - p)) by lia. apply andb_false_r.
  - rewrite Z.shiftr_spec by lia. now replace (n - p + p) with n by lia.
Qed.

Lemma shiftl_inj (a b p : Z) :
  0 <= p -> Z.shiftl a p = Z.shiftl b p -> a = b.
Proof.
  intros Hp. rewrite !Z.shiftl_mul_pow2 by assumption. intros H.
  apply Z.mul_reg_r in H; [assumption|].
  pose proof (Z.pow_pos_nonneg 2 p). lia.
Qed.

Lemma field_value_range (c p w : Z) :
  0 <= w -> 0 <= field_value c p w < 2 ^ w.
Proof.
  intros Hw. unfold field_value. rewrite Z.land_ones by assumption.
  apply Z.mod_pos_bound. apply Z.pow_pos_nonneg; lia.
Qed.

Lemma field_value_testbit (c p w i : Z) :
  0 <= p -> 0 <= i < w ->
  Z.testbit (field_value c p w) i = Z.testbit c (p + i).
Proof.
  intros Hp Hi. unfold field_value.
  rewrite Z.land_spec, Z.shiftr_spec, Z.ones_spec_low by lia.
  rewrite andb_true_r. now rewrite Z.add_comm.
Qed.

Lemma testbit_high (v w i : Z) :
  0 <= v < 2 ^ w -> 0 <= w <= i -> Z.testbit v i = false.
Proof.
  intros Hv Hi. rewrite <- (Z.mod_small v (2 ^ w)) by assumption.
  now apply Z.mod_pow2_bits_high.
Qed.

(** Having field value [v] is having the bits of [v], for a [v] that fits. *)
Lemma field_value_bits (c p w v : Z) :
  0 <= p -> 0 <= w ->
  field_value c p w = v <-> (0 <= v < 2 ^ w /\ bits_equal c p w v).
Proof.
  intros Hp Hw. split.
  - intros <-. split; [now apply field_value_range|].
    intros i Hi. symmetry. now apply field_value_testbit.
  - intros [Hv Hb]. apply Z.bits_inj'. intros n Hn.
    destruct (Z.lt_ge_cases n w) as [Hlt|Hge].
    + rewrite field_value_testbit by lia. apply Hb. lia.
    + rewrite (testbit_high v w n) by lia.
      apply (testbit_high _ w); [now apply field_value_range|lia].
Qed.

(** [Masker.get_mask] compares the whole field with the target. *)
Lemma get_mask_cell_field (p w v c : Z) :
  0 <= p -> get_mask_cell p w v c = (field_value c p w =? v).
Proof.
  intros Hp. unfold get_mask_cell. rewrite land_range_mask by assumption.
  destruct (Z.eqb_spec (field_value c p w) v) as [->|Hne].
  - apply Z.eqb_refl.
  - apply Z.eqb_neq. intros H. apply Hne. now apply (shiftl_inj _ _ p).
Qed.

Lemma int_of_bool_1 (b : bool) : int_of_bool b = 1 <-> b = true.
Proof. destruct b; simpl; split; intros; (reflexivity || discriminate). Qed.

(** ** Exact extraction *)

(** The mask of [Masker.get_mask], cell by cell: 1 exactly where the field
    value is the target. *)
Lemma get_mask_field (self : masker) (p w v : Z) :
  0 <= p -> 1 <= w ->
  fst (Masker.get_mask p w (PyInt v) self)
  = Ok (np_map (fun c => int_of_bool (field_value c p w =? v))
          (band_data self)).
Proof.
  intros Hp Hw. rewrite get_mask_run by assumption. cbn [fst]. f_equal.
  apply np_map_ext. intros c. now rewrite get_mask_cell_field.
Qed.

(** C2, as amended: for every 2-D array of an integer dtype, bit offset
    [p >= 0] and bit width [w >= 1] whose range mask [((1 << w) - 1) << p]
    fits the dtype, and integer target [v] with [v << p] a signed 64-bit
    value, [Masker.get_mask] returns a mask that is 1 at a cell iff [v]
    fits in [w] bits ([0 <= v < 2^w]) and the bits of the cell at positions
    [[p, p+w)] equal [v]'s binary representation zero-padded to [w] bits; a
    target that does not fit is not truncated. *)
Theorem get_mask_exact (d : dtype) (self : masker) (p w v : Z) (i j : nat)
  (c : Z) :
  of_dtype d (band_data self) ->
  0 <= p -> 1 <= w ->
  fits d (Z.shiftl (Z.ones w) p) ->
  int64_range (Z.shiftl v p) ->
  cell_at (band_data self) i j = Some c ->
  exists mask b,
    fst (Masker.get_mask p w (PyInt v) self) = Ok mask /\
    cell_at mask i j = Some b /\
    (b = 0 \/ b = 1) /\
    (b = 1 <-> (0 <= v < 2 ^ w /\ bits_equal c p w v)).
Proof.
  intros _ Hp Hw _ _ Hc. eexists.
  exists (int_of_bool (field_value c p w =? v)).
  split; [now apply get_mask_field|].
  split; [now rewrite cell_at_np_map, Hc|].
  split; [destruct (field_value c p w =? v); auto|].
  rewrite int_of_bool_1, Z.eqb_eq. apply field_value_bits; lia.
Qed.

Lemma get_mask_exact_witness :
  exists mask b,
    fst (Masker.get_mask 4 3 (PyInt 5) (Masker.init [[0; 80]; [81; 16]]))
    = Ok mask /\
    cell_at mask 0 1 = Some b /\
    (b = 0 \/ b = 1) /\
    (b = 1 <-> (0 <= 5 < 2 ^ 3 /\ bits_equal 80 4 3 5)).
Proof.
  apply (get_mask_exact uint16 (Masker.init [[0; 80]; [81; 16]]) 4 3 5 0 1 80);
    [ unfold of_dtype;
      repeat (apply Forall_cons || apply Forall_nil);
      unfold fits; simpl; lia
    | lia | lia
    | unfold fits, Z.ones; simpl; lia
    | unfold int64_range; simpl; lia
    | reflexivity ].
Defined.

(** C2, as stated, fails: the two low bits of the cell 1 are [01], which is
    the target 5 = [101] truncated to two bits, yet [get_mask(0, 2, 5)]
    returns 0 there. *)
Lemma get_mask_does_not_truncate :
  cell_at [[1]] 0 0 = Some 1 /\
  bits_equal 1 0 2 5 /\
  fst (Masker.get_mask 0 2 (PyInt 5) (Masker.init [[1]])) = Ok [[0]].
Proof.
  split; [reflexivity|]. split; [|reflexivity].
  intros i Hi. assert (Hi' : i = 0 \/ i = 1) by lia.
  destruct Hi' as [-> | ->]; reflexivity.
Qed.

(** The Landsat-internal extraction is a different matter: it masks with
    [bit_len << bit_loc], so that for the width 3 it reads two bits.  The
    cell 64 has water field 4 (bits 4..6), and the exact query at level 0
    returns 1 there. *)
Example landsat_exact_reads_two_bits :
  field_value 64 4 3 = 4 /\
  fst (LandsatMasker.get_water_mask 0 false (Masker.init [[64]])) = Ok [[1]].
Proof. split; reflexivity. Qed.



(** ** Cumulative extraction *)

(** C1 fails on the code.  The water field of the cell 64 (bits 4..6) has
    value 4, at least 3, but the cumulative query at level 3 returns 0:
    [__get_mask] masks with [3 << 4] and never sees bit 6. *)
Theorem cumulative_mask_ignores_top_bit :
  3 <= field_value 64 4 3 /\
  fst (LandsatMasker.get_water_mask 3 true (Masker.init [[64]])) = Ok [[0]] /\
  fst (LandsatMasker.__get_mask 4 3 3 true (Masker.init [[64]]))
  = Ok [[false]].
Proof. repeat split; (reflexivity || (vm_compute; discriminate)). Qed.

(** ** Single Landsat conditions *)

Lemma landsat_getter_run (self : masker) (loc v : Z) (cum : bool) :
  0 <= loc ->
  (mask <- LandsatMasker.__get_mask loc 3 v cum ;; ret (np.astype_int mask))
    self
  = (Ok (np_map (fun c => int_of_bool (landsat_cell loc 3 v cum c))
           (band_data self)), self).
Proof.
  intros Hl. unfold bind. rewrite landsat_get_mask_run by assumption.
  unfold ret, np.astype_int. now rewrite np_map_np_map.
Qed.

(** C4: a cell holding 0xC000 is selected by the cloud query at confidence
    high, not cumulative. *)
Theorem cloud_high_at_0xC000 (self : masker) (i j : nat) :
  cell_at (band_data self) i j = Some 49152 ->
  exists mask,
    fst (LandsatMasker.get_cloud_mask LandsatConfidence.high false self)
    = Ok mask /\
    cell_at mask i j = Some 1.
Proof.
  intros Hc. unfold LandsatMasker.get_cloud_mask.
  rewrite landsat_getter_run by lia. eexists. split; [reflexivity|].
  rewrite cell_at_np_map, Hc. reflexivity.
Qed.

Lemma cloud_high_at_0xC000_witness :
  exists mask,
    fst (LandsatMasker.get_cloud_mask LandsatConfidence.high false
           (Masker.init [[0; 1]; [49152; 16384]]))
    = Ok mask /\
    cell_at mask 1 0 = Some 1.
Proof.
  apply (cloud_high_at_0xC000 (Masker.init [[0; 1]; [49152; 16384]]) 1 0).
  reflexivity.
Defined.

Lemma fill_cell (c : Z) : landsat_cell 0 1 1 false c = Z.testbit c 0.
Proof.
  unfold landsat_cell. change (Z.shiftl 1 0) with (Z.ones 1).
  rewrite Z.land_ones by lia. now rewrite Z.bit0_eqb.
Qed.

(** C5: [get_fill_mask()] is true at exactly the cells whose bit 0 is 1,
    whatever their other bits; the mask has the shape of the array. *)
Theorem get_fill_mask_bit0 (self : masker) (i j : nat) :
  exists mask,
    fst (LandsatMasker.get_fill_mask self) = Ok mask /\
    cell_at mask i j
    = option_map (fun c => Z.testbit c 0) (cell_at (band_data self) i j).
Proof.
  unfold LandsatMasker.get_fill_mask.
  rewrite landsat_get_mask_run by lia. eexists. split; [reflexivity|].
  rewrite cell_at_np_map.
  destruct (cell_at (band_data self) i j); cbn [option_map];
    [now rewrite fill_cell | reflexivity].
Qed.

(** ** The sentinel level *)

Lemma sentinel_cell (loc len c : Z) (cum : bool) :
  0 <= len ->
  landsat_cell loc len LandsatConfidence.none cum c = cum.
Proof.
  intros Hlen. unfold landsat_cell, LandsatConfidence.none.
  assert (Hm : 0 <= Z.land c (Z.shiftl len loc))
    by (apply Z.land_nonneg; right; now apply Z.shiftl_nonneg).
  assert (Hs : Z.shiftl (-1) loc < 0).
  { destruct (Z.lt_ge_cases (Z.shiftl (-1) loc) 0) as [H|H]; [assumption|].
    apply Z.shiftl_nonneg in H. lia. }
  destruct cum.
  - apply Z.leb_le. lia.
  - apply Z.eqb_neq. lia.
Qed.

(** C9: each Landsat condition getter called at the sentinel level [none]
    returns the all-zero mask when not cumulative and the all-one mask when
    cumulative. *)
Theorem getters_at_sentinel (self : masker) :
  Forall
    (fun get : Z -> bool -> M (ndarray Z) =>
       fst (get LandsatConfidence.none false self)
       = Ok (np_map (fun _ => 0) (band_data self)) /\
       fst (get LandsatConfidence.none true self)
       = Ok (np_map (fun _ => 1) (band_data self)))
    condition_getters.
Proof.
  unfold condition_getters.
  repeat (apply Forall_cons || apply Forall_nil);
    unfold LandsatMasker.get_cloud_mask, LandsatMasker.get_cirrus_mask,
      LandsatMasker.get_snow_mask, LandsatMasker.get_veg_mask,
      LandsatMasker.get_water_mask;
    rewrite !landsat_getter_run by lia; cbn [fst];
    split; f_equal; apply np_map_ext; intros c;
    now rewrite sentinel_cell by lia.
Qed.

(** ** Composition of several conditions *)

Lemma zip_with_map {A B C D : Type} (f : B -> C -> D) (g : A -> B)
  (h : A -> C) (l : list A) :
  zip_with f (map g l) (map h l) = map (fun x => f (g x) (h x)) l.
Proof. induction l as [|x l IH]; simpl; [reflexivity|]. now rewrite IH. Qed.

Lemma np_map2_np_map {A B C D : Type} (f : B -> C -> D) (g : A -> B)
  (h : A -> C) (a : ndarray A) :
  np_map2 f (np_map g a) (np_map h a) = np_map (fun x => f (g x) (h x)) a.
Proof.
  unfold np_map2, np_map. rewrite zip_with_map. apply map_ext.
  intros row. apply zip_with_map.
Qed.

Lemma fold_task_run (self : masker) (inclusive : bool)
  (t : LandsatMasker.task) (g : Z -> bool) :
  0 <= task_loc t ->
  LandsatMasker.fold_task inclusive t (np_map g (band_data self)) self
  = (Ok (np_map (fun c => task_cell inclusive c (g c) t) (band_data self)),
     self).
Proof.
  destruct t as [[loc level] cum]. unfold task_loc. cbn [fst]. intros Hl.
  unfold LandsatMasker.fold_task, bind.
  rewrite landsat_get_mask_run by assumption.
  unfold np.logical_or, np.logical_and, ret, task_cell, combine.
  destruct inclusive; now rewrite np_map2_np_map.
Qed.

Lemma for_each_tasks_run (self : masker) (inclusive : bool)
  (ts : list LandsatMasker.task) (g : Z -> bool) :
  Forall (fun t => 0 <= task_loc t) ts ->
  for_each ts (LandsatMasker.fold_task inclusive)
    (np_map g (band_data self)) self
  = (Ok (np_map (fun c => fold_left (task_cell inclusive c) ts (g c))
           (band_data self)), self).
Proof.
  intros Hts. revert g. induction Hts as [|t ts Ht _ IH]; intros g.
  - reflexivity.
  - cbn [for_each fold_left]. unfold bind at 1.
    rewrite fold_task_run by assumption. apply IH.
Qed.

Lemma tasks_loc_nonneg cloud cloud_cum cirrus cirrus_cum snow snow_cum veg
  veg_cum water water_cum :
  Forall (fun t => 0 <= task_loc t)
    (LandsatMasker.tasks cloud cloud_cum cirrus cirrus_cum snow snow_cum veg
       veg_cum water water_cum).
Proof. repeat constructor; unfold task_loc; cbn [fst]; lia. Qed.

Lemma basic_mask_run (self : masker) (inclusive : bool) :
  LandsatMasker.basic_mask inclusive self
  = (Ok (np_map (basic_cell inclusive) (band_data self)), self).
Proof. destruct inclusive; reflexivity. Qed.

(** [get_multi_mask], cell by cell: the start value folded with every one
    of the five conditions, the sentinel level included. *)
Lemma get_multi_mask_run (self : masker) cloud cloud_cum cirrus cirrus_cum
  snow snow_cum veg veg_cum water water_cum inclusive :
  LandsatMasker.get_multi_mask cloud cloud_cum cirrus cirrus_cum snow
    snow_cum veg veg_cum water water_cum inclusive self
  = (Ok (np_map
           (fun c =>
              int_of_bool
                (fold_left (task_cell inclusive c)
                   (LandsatMasker.tasks cloud cloud_cum cirrus cirrus_cum snow
                      snow_cum veg veg_cum water water_cum)
                   (basic_cell inclusive c)))
           (band_data self)), self).
Proof.
  unfold LandsatMasker.get_multi_mask. unfold bind at 1.
  rewrite basic_mask_run. unfold bind.
  rewrite for_each_tasks_run by apply tasks_loc_nonneg.
  unfold ret, np.astype_int. now rewrite np_map_np_map.
Qed.

(** C3 fails on the code: no condition is skipped.  With the five levels at
    the sentinel (and the flags at their defaults) the exclusive composition
    is the all-zero mask, on every array, where the claim has all ones. *)
Theorem get_multi_mask_defaults_exclusive (self : masker) :
  let none := LandsatConfidence.none in
  fst (LandsatMasker.get_multi_mask none false none false none false
         none false none false false self)
  = Ok (np_map (fun _ => 0) (band_data self)).
Proof.
  cbv zeta. rewrite get_multi_mask_run. cbn [fst]. f_equal.
  apply np_map_ext. intros c.
  cbn [LandsatMasker.tasks fold_left task_cell].
  rewrite !sentinel_cell by lia. unfold combine.
  now rewrite !andb_false_r.
Qed.

Lemma combine_swap (inclusive a x y : bool) :
  combine inclusive (combine inclusive a x) y
  = combine inclusive (combine inclusive a y) x.
Proof. destruct inclusive, a, x, y; reflexivity. Qed.

Lemma task_cell_swap (inclusive : bool) (c : Z) (acc : bool)
  (t t' : LandsatMasker.task) :
  task_cell inclusive c (task_cell inclusive c acc t) t'
  = task_cell inclusive c (task_cell inclusive c acc t') t.
Proof.
  destruct t as [[? ?] ?], t' as [[? ?] ?]. unfold task_cell.
  apply combine_swap.
Qed.

(** The fold at a cell does not depend on the order of the conditions. *)
Lemma fold_task_cell_perm (inclusive : bool) (c : Z)
  (ts ts' : list LandsatMasker.task) :
  Permutation ts ts' ->
  forall acc,
    fold_left (task_cell inclusive c) ts acc
    = fold_left (task_cell inclusive c) ts' acc.
Proof.
  induction 1 as [|t ts ts' _ IH|t t' ts|ts ts' ts'' _ IH1 _ IH2];
    intros acc; cbn [fold_left].
  - reflexivity.
  - apply IH.
  - now rewrite task_cell_swap.
  - now rewrite IH1.
Qed.

(** The loop of [get_multi_mask] run over the five conditions in any order
    leaves the same mask. *)
Lemma multi_mask_loop_any_order (self : masker) cloud cloud_cum cirrus
  cirrus_cum snow snow_cum veg veg_cum water water_cum inclusive
  (ts : list LandsatMasker.task) (start : ndarray bool) :
  Permutation
    (LandsatMasker.tasks cloud cloud_cum cirrus cirrus_cum snow snow_cum veg
       veg_cum water water_cum) ts ->
  fst (LandsatMasker.basic_mask inclusive self) = Ok start ->
  for_each ts (LandsatMasker.fold_task inclusive) start self
  = for_each
      (LandsatMasker.tasks cloud cloud_cum cirrus cirrus_cum snow snow_cum
         veg veg_cum water water_cum)
      (LandsatMasker.fold_task inclusive) start self.
Proof.
  intros Hperm. rewrite basic_mask_run. cbn [fst]. intros [= <-].
  assert (Hts : Forall (fun t => 0 <= task_loc t) ts).
  { eapply Permutation_Forall; [exact Hperm | apply tasks_loc_nonneg]. }
  rewrite !for_each_tasks_run by (assumption || apply tasks_loc_nonneg).
  f_equal. f_equal. apply np_map_ext. intros c. symmetry.
  now apply fold_task_cell_perm.
Qed.

Lemma fold_masks_cells (self : masker) (inclusive : bool)
  (ts : list LandsatMasker.task) (masks : list (ndarray bool)) :
  Forall (fun t => 0 <= task_loc t) ts ->
  Forall2 (condition_mask self) ts masks ->
  forall g,
    fold_masks inclusive (np_map g (band_data self)) masks
    = np_map (fun c => fold_left (task_cell inclusive c) ts (g c))
        (band_data self).
Proof.
  intros Hts Hms. induction Hms as [|t m ts masks Hm _ IH]; intros g.
  - reflexivity.
  - inversion Hts as [|? ? Ht Hts']; subst.
    destruct t as [[loc level] cum]. unfold condition_mask in Hm.
    unfold task_loc in Ht. cbn [fst] in Ht.
    rewrite landsat_get_mask_run in Hm by assumption. cbn [fst] in Hm.
    injection Hm as <-.
    unfold fold_masks in *. cbn [fold_left].
    replace ((if inclusive then np.logical_or else np.logical_and)
               (np_map g (band_data self))
               (np_map (landsat_cell loc 3 level cum) (band_data self)))
      with (np_map (fun c => task_cell inclusive c (g c) (loc, level, cum))
              (band_data self)).
    + now rewrite IH.
    + unfold task_cell, combine, np.logical_or, np.logical_and.
      destruct inclusive; now rewrite np_map2_np_map.
Qed.

(** [get_multi_mask] is the fold, by AND or by OR, of the masks of its five
    conditions taken in any order; a condition at the sentinel level is one
    of the five. *)
Lemma get_multi_mask_fold (self : masker) cloud cloud_cum cirrus cirrus_cum
  snow snow_cum veg veg_cum water water_cum inclusive
  (ts : list LandsatMasker.task) (masks : list (ndarray bool))
  (start : ndarray bool) :
  Permutation
    (LandsatMasker.tasks cloud cloud_cum cirrus cirrus_cum snow snow_cum veg
       veg_cum water water_cum) ts ->
  Forall2 (condition_mask self) ts masks ->
  fst (LandsatMasker.basic_mask inclusive self) = Ok start ->
  fst (LandsatMasker.get_multi_mask cloud cloud_cum cirrus cirrus_cum snow
         snow_cum veg veg_cum water water_cum inclusive self)
  = Ok (np.astype_int (fold_masks inclusive start masks)).
Proof.
  intros Hperm Hms. rewrite basic_mask_run. cbn [fst]. intros [= <-].
  assert (Hts : Forall (fun t => 0 <= task_loc t) ts).
  { eapply Permutation_Forall; [exact Hperm | apply tasks_loc_nonneg]. }
  rewrite get_multi_mask_run, (fold_masks_cells self inclusive ts)
    by assumption.
  cbn [fst]. f_equal. unfold np.astype_int. rewrite np_map_np_map.
  apply np_map_ext. intros c. unfold int_of_bool.
  now rewrite (fold_task_cell_perm inclusive c _ ts Hperm).
Qed.

(** C6 fails on the code where a condition is left at the sentinel.  On
    the cell 0xC000 with only cloud requested (level high), the fold by AND
    over the requested conditions is the cloud mask, 1; [get_multi_mask]
    also folds in the four sentinel conditions and returns 0. *)
Theorem get_multi_mask_folds_sentinel :
  let none := LandsatConfidence.none in
  let high := LandsatConfidence.high in
  let self := Masker.init [[49152]] in
  fst (LandsatMasker.basic_mask false self) = Ok [[true]] /\
  fst (LandsatMasker.get_cloud_mask high false self) = Ok [[1]] /\
  fst (LandsatMasker.get_multi_mask high false none false none false
         none false none false false self) = Ok [[0]].
Proof. repeat split; reflexivity. Qed.

(** ** Errors *)

(** C7, as amended: a Landsat query through [main] whose target is none of
    the five names raises the generic [Exception] with the message of the
    source, and [Masker.get_mask] with bit width zero raises [ValueError];
    in both cases no mask is returned. *)
Theorem unknown_target_zero_width (a : args) (loaded : ndarray Z)
  (self : masker) (p : Z) (v : pyval) :
  is_str (source a) "landsat" = true ->
  known_target (target a) = false ->
  main a loaded
  = Raise (Exception ("Masker type " ++ str_of (target a)
                        ++ " is unrecongized.")) /\
  fst (Masker.get_mask p 0 v self) = Raise ValueError.
Proof.
  intros Hs Ht. split; [|reflexivity].
  unfold known_target, landsat_targets in Ht. cbn [existsb] in Ht.
  repeat (apply orb_false_elim in Ht; destruct Ht as [? Ht]).
  unfold main. rewrite Hs.
  repeat match goal with H : is_str _ _ = false |- _ => rewrite H; clear H end.
  reflexivity.
Qed.

Lemma unknown_target_zero_width_witness :
  main (mk_args (Some "landsat") (Some "LC8_BQA.TIF") (Some "out.tif")
          (Some "high") (Some "fog") None) [[49152]]
  = Raise (Exception "Masker type fog is unrecongized.") /\
  fst (Masker.get_mask 14 0 (PyStr "11") (Masker.init [[49152]]))
  = Raise ValueError.
Proof.
  apply (unknown_target_zero_width
           (mk_args (Some "landsat") (Some "LC8_BQA.TIF") (Some "out.tif")
              (Some "high") (Some "fog") None)
           [[49152]] (Masker.init [[49152]]) 14 (PyStr "11"));
    reflexivity.
Defined.

(** C7, as stated, fails: the exception raised for an unknown target is of
    class [Exception], not [UnknownConditionError], and the one raised for
    a zero bit width is of class [ValueError], not [ConfigurationError]. *)
Lemma error_classes_of_the_code :
  (exists e,
     main (mk_args (Some "landsat") (Some "LC8_BQA.TIF") (Some "out.tif")
             (Some "high") (Some "fog") None) [[49152]] = Raise e /\
     exn_class e = "Exception" /\
     exn_class e <> "UnknownConditionError") /\
  (exists e,
     fst (Masker.get_mask 14 0 (PyInt 3) (Masker.init [[49152]])) = Raise e /\
     exn_class e = "ValueError" /\
     exn_class e <> "ConfigurationError").
Proof.
  split; eexists; (split; [reflexivity|]); split;
    (reflexivity || discriminate).
Qed.

(** ** Queries do not change the object *)

Lemma readonly_ret {A : Type} (a : A) : readonly (ret a).
Proof. intros self. reflexivity. Qed.

Lemma readonly_lift {A : Type} (r : result A) : readonly (lift r).
Proof. intros self. reflexivity. Qed.

Lemma readonly_get_band_data : readonly get_band_data.
Proof. intros self. reflexivity. Qed.

Lemma readonly_bind {A B : Type} (m : M A) (k : A -> M B) :
  readonly m -> (forall a, readonly (k a)) -> readonly (bind m k).
Proof.
  intros Hm Hk self. unfold bind. specialize (Hm self).
  destruct (m self) as [[a|e] self']; cbn [snd] in *; subst self'.
  - apply Hk.
  - reflexivity.
Qed.

Lemma readonly_if {A : Type} (b : bool) (m m' : M A) :
  readonly m -> readonly m' -> readonly (if b then m else m').
Proof. destruct b; auto. Qed.

Lemma readonly_for_each {A S : Type} (l : list A) (body : A -> S -> M S) :
  (forall x acc, readonly (body x acc)) ->
  forall acc, readonly (for_each l body acc).
Proof.
  intros Hb. induction l as [|x l IH]; intros acc; cbn [for_each].
  - apply readonly_ret.
  - apply readonly_bind; auto.
Qed.

Create HintDb readonly.
#[local] Hint Resolve readonly_ret readonly_lift readonly_get_band_data
  readonly_if : readonly.
#[local] Hint Extern 2 (readonly (bind _ _)) =>
  apply readonly_bind; [|intros ?] : readonly.
#[local] Hint Extern 2 (readonly (for_each _ _ _)) =>
  apply readonly_for_each; intros ? ? : readonly.

Lemma readonly_get_mask (p w : Z) (v : pyval) :
  readonly (Masker.get_mask p w v).
Proof. unfold Masker.get_mask. auto 20 with readonly. Qed.

Lemma readonly_private_get_mask (loc len v : Z) (cum : bool) :
  readonly (LandsatMasker.__get_mask loc len v cum).
Proof. unfold LandsatMasker.__get_mask. auto 20 with readonly. Qed.

Lemma readonly_fold_task (inclusive : bool) (t : LandsatMasker.task)
  (acc : ndarray bool) :
  readonly (LandsatMasker.fold_task inclusive t acc).
Proof.
  destruct t as [[loc level] cum]. unfold LandsatMasker.fold_task.
  pose proof readonly_private_get_mask. auto 20 with readonly.
Qed.

Lemma readonly_run_query (q : query) : readonly (run_query q).
Proof.
  pose proof readonly_get_mask. pose proof readonly_private_get_mask.
  pose proof readonly_fold_task.
  destruct q; cbn [run_query];
    unfold LandsatMasker.get_cloud_mask, LandsatMasker.get_cirrus_mask,
      LandsatMasker.get_veg_mask, LandsatMasker.get_water_mask,
      LandsatMasker.get_snow_mask, LandsatMasker.get_fill_mask,
      LandsatMasker.get_multi_mask, LandsatMasker.basic_mask,
      ModisMasker.get_qa_mask;
    auto 20 with readonly.
Qed.

(** C8: a mask query leaves the object, and so [band_data], as it found
    it, and the same query asked again returns the same mask (or raises the
    same exception). *)
Theorem queries_have_no_side_effect (q : query) (self : masker) :
  let (r1, self1) := run_query q self in
  let (r2, self2) := run_query q self1 in
  r2 = r1 /\ self1 = self /\ self2 = self /\
  band_data self2 = band_data self.
Proof.
  pose proof (readonly_run_query q self) as H1.
  destruct (run_query q self) as [r1 self1] eqn:E1. cbn [snd] in H1.
  subst self1. rewrite E1. auto.
Qed.

(** By contrast [load_data] does replace [band_data]. *)
Example load_data_writes :
  band_data (snd (Masker.load_data [[1]] (Masker.init [[0]]))) = [[1]].
Proof. reflexivity. Qed.

(** * Further properties of the code *)

(** ** [Masker.get_mask]: errors and str targets *)




Lemma lstrip_digits (bs : list bool) :
  lstrip (map digit_char bs) = map digit_char bs.
Proof. destruct bs as [|[] bs]; reflexivity. Qed.

Lemma strip_digits (bs : list bool) :
  strip (map digit_char bs) = map digit_char bs.
Proof.
  unfold strip. rewrite lstrip_digits, <- map_rev, lstrip_digits, map_rev.
  apply rev_involutive.
Qed.

Lemma digits2_digits (bs : list bool) (acc : Z) :
  digits2 false acc (map digit_char bs)
  = Some (fold_left (fun a (b : bool) => 2 * a + (if b then 1 else 0)) bs acc).
Proof.
  revert acc. induction bs as [|b bs IH]; intros acc; [reflexivity|].
  destruct b; cbn [map digit_char digits2 fold_left].
  - change (Ascii.eqb "1" "0") with false.
    change (Ascii.eqb "1" "1") with true. cbv iota. apply IH.
  - change (Ascii.eqb "0" "0") with true. cbv iota.
    rewrite IH. now rewrite Z.add_0_r.
Qed.

(** [int(s, 2)] on a non-empty str of binary digits. *)
Lemma int_base2_digits (bs : list bool) :
  bs <> [] -> int_base2 (bits_string bs) = Ok (bits_value bs).
Proof.
  intros Hne. unfold int_base2, bits_string, bits_value.
  rewrite list_ascii_of_string_of_list_ascii, strip_digits.
  destruct bs as [|b bs]; [congruence|]. clear Hne.
  assert (Hs : skip_sign (map digit_char (b :: bs))
               = (false, map digit_char (b :: bs))) by (destruct b; reflexivity).
  assert (Hp : skip_prefix (map digit_char (b :: bs))
               = map digit_char (b :: bs)).
  { destruct b; destruct bs as [|[] bs]; reflexivity. }
  rewrite Hs. cbv beta iota. rewrite Hp.
  assert (Hu : Ascii.eqb (digit_char b) "_" = false)
    by (destruct b; reflexivity).
  pose proof (digits2_digits (b :: bs) 0) as Hd.
  cbn [map] in *. rewrite Hu, Hd. reflexivity.
Qed.

(** X2: on an array of an integer dtype that the range mask fits, a target
    given as a non-empty str of binary digits (denoting a number [n] with
    [n << bit_pos] a signed 64-bit value) selects the cells whose field
    value is [n]; the length of the str is not compared with [bit_len]. *)
Theorem get_mask_digit_string (d : dtype) (self : masker) (p w : Z)
  (bs : list bool) :
  of_dtype d (band_data self) ->
  0 <= p -> 1 <= w ->
  fits d (Z.shiftl (Z.ones w) p) ->
  int64_range (Z.shiftl (bits_value bs) p) ->
  bs <> [] ->
  fst (Masker.get_mask p w (PyStr (bits_string bs)) self)
  = Ok (np_map (fun c => int_of_bool (field_value c p w =? bits_value bs))
          (band_data self)).
Proof.
  intros _ Hp Hw _ _ Hne. rewrite <- get_mask_field by assumption.
  unfold Masker.get_mask, bind, lift.
  now rewrite int_base2_digits by assumption.
Qed.

Lemma get_mask_digit_string_witness :
  fst (Masker.get_mask 4 3 (PyStr (bits_string [false; true; true]))
         (Masker.init [[48; 112]; [3; 51]]))
  = Ok (np_map
          (fun c =>
             int_of_bool (field_value c 4 3 =? bits_value [false; true; true]))
          [[48; 112]; [3; 51]]).
Proof.
  apply (get_mask_digit_string uint16 (Masker.init [[48; 112]; [3; 51]]) 4 3
           [false; true; true]);
    [ unfold of_dtype;
      repeat (apply Forall_cons || apply Forall_nil);
      unfold fits; simpl; lia
    | lia | lia
    | unfold fits, Z.ones; simpl; lia
    | unfold int64_range; simpl; lia
    | discriminate ].
Defined.

(** X3: on an array of an integer dtype that the range mask fits, a
    negative int target (with [v << bit_pos] a signed 64-bit value) matches
    no cell. *)
Theorem get_mask_negative_target (d : dtype) (self : masker) (p w v : Z) :
  of_dtype d (band_data self) ->
  0 <= p -> 1 <= w ->
  fits d (Z.shiftl (Z.ones w) p) ->
  int64_range (Z.shiftl v p) ->
  v < 0 ->
  fst (Masker.get_mask p w (PyInt v) self)
  = Ok (np_map (fun _ => 0) (band_data self)).
Proof.
  intros _ Hp Hw _ _ Hv. rewrite get_mask_field by assumption. f_equal.
  apply np_map_ext. intros c.
  pose proof (field_value_range c p w ltac:(lia)) as Hr.
  destruct (Z.eqb_spec (field_value c p w) v); [lia|reflexivity].
Qed.

Lemma get_mask_negative_target_witness :
  fst (Masker.get_mask 0 2 (PyInt (-1)) (Masker.init [[3; 7]; [15; 0]]))
  = Ok (np_map (fun _ => 0) [[3; 7]; [15; 0]]).
Proof.
  apply (get_mask_negative_target uint16 (Masker.init [[3; 7]; [15; 0]])
           0 2 (-1));
    [ unfold of_dtype;
      repeat (apply Forall_cons || apply Forall_nil);
      unfold fits; simpl; lia
    | lia | lia
    | unfold fits, Z.ones; simpl; lia
    | unfold int64_range; simpl; lia
    | lia ].
Defined.

(** ** The Landsat getters read two-bit fields *)

Lemma shiftl_leb (a b p : Z) :
  0 <= p -> (Z.shiftl a p <=? Z.shiftl b p) = (a <=? b).
Proof.
  intros Hp. rewrite !Z.shiftl_mul_pow2 by assumption.
  pose proof (Z.pow_pos_nonneg 2 p ltac:(lia) Hp) as Hpow.
  destruct (Z.leb_spec a b) as [Hle|Hgt].
  - apply Z.leb_le. now apply Z.mul_le_mono_nonneg_r; [lia|].
  - apply Z.leb_gt. now apply Z.mul_lt_mono_pos_r.
Qed.

Lemma shiftl_eqb (a b p : Z) :
  0 <= p -> (Z.shiftl a p =? Z.shiftl b p) = (a =? b).
Proof.
  intros Hp. destruct (Z.eqb_spec a b) as [->|Hne].
  - apply Z.eqb_refl.
  - apply Z.eqb_neq. intros H. apply Hne. now apply (shiftl_inj _ _ p).
Qed.

(** With the width 3 the mask [3 << loc] covers the two bits at [loc]. *)
Lemma landsat_cell_two_bits (loc v c : Z) (cum : bool) :
  0 <= loc ->
  landsat_cell loc 3 v cum c = level_test cum v (field_value c loc 2).
Proof.
  intros Hl. unfold landsat_cell, level_test.
  change (Z.shiftl 3 loc) with (Z.shiftl (Z.ones 2) loc).
  rewrite land_range_mask by assumption.
  destruct cum; [now apply shiftl_leb | now apply shiftl_eqb].
Qed.

Lemma getter_locs_nonneg (get : Z -> bool -> M (ndarray Z)) (loc : Z) :
  In (get, loc) getter_locs -> 0 <= loc.
Proof.
  unfold getter_locs. cbn [In].
  intros [H|[H|[H|[H|[H|[]]]]]]; injection H as _ <-; lia.
Qed.

Lemma getter_run (get : Z -> bool -> M (ndarray Z)) (loc : Z)
  (self : masker) (conf : Z) (cum : bool) :
  In (get, loc) getter_locs ->
  get conf cum self
  = (Ok (np_map
           (fun c => int_of_bool (level_test cum conf (field_value c loc 2)))
           (band_data self)), self).
Proof.
  intros Hin. pose proof (getter_locs_nonneg get loc Hin) as Hl.
  assert (E : get conf cum self
              = (Ok (np_map (fun c => int_of_bool (landsat_cell loc 3 conf cum c))
                       (band_data self)), self)).
  { unfold getter_locs in Hin. cbn [In] in Hin.
    destruct Hin as [H|[H|[H|[H|[H|[]]]]]]; injection H as <- <-;
      apply landsat_getter_run; lia. }
  rewrite E. f_equal. f_equal. apply np_map_ext. intros c.
  now rewrite landsat_cell_two_bits.
Qed.

(** X4: each condition getter tests the two bits at its location: the mask
    is 1 at a cell iff their value equals the level (exact) or is at least
    the level (cumulative). *)
Theorem getter_tests_two_bit_field (get : Z -> bool -> M (ndarray Z))
  (loc : Z) (self : masker) (conf : Z) (cum : bool) (i j : nat) (c : Z) :
  In (get, loc) getter_locs ->
  cell_at (band_data self) i j = Some c ->
  exists b,
    mask_cell (fst (get conf cum self)) i j = Some b /\
    (b = 0 \/ b = 1) /\
    (b = 1 <-> if cum then conf <= field_value c loc 2
               else field_value c loc 2 = conf).
Proof.
  intros Hin Hc. rewrite (getter_run get loc) by assumption.
  cbn [fst mask_cell]. rewrite cell_at_np_map, Hc. cbn [option_map].
  eexists. split; [reflexivity|]. unfold level_test.
  split; [destruct cum; match goal with |- context [int_of_bool ?x] =>
                           destruct x end; auto|].
  rewrite int_of_bool_1. destruct cum; [apply Z.leb_le | apply Z.eqb_eq].
Qed.

Lemma getter_tests_two_bit_field_witness :
  exists b,
    mask_cell (fst (LandsatMasker.get_snow_mask 2 true
                      (Masker.init [[0; 3072]; [1024; 5]]))) 0 1 = Some b /\
    (b = 0 \/ b = 1) /\
    (b = 1 <-> 2 <= field_value 3072 10 2).
Proof.
  apply (getter_tests_two_bit_field LandsatMasker.get_snow_mask 10
           (Masker.init [[0; 3072]; [1024; 5]]) 2 true 0 1 3072);
    [simpl; auto | reflexivity].
Defined.

(** X5: for each getter the exact masks of the levels 0..3 partition the
    cells: at every cell exactly one level gives 1, every other int level
    gives 0. *)
Theorem exact_levels_partition (get : Z -> bool -> M (ndarray Z)) (loc : Z)
  (self : masker) (i j : nat) (c : Z) :
  In (get, loc) getter_locs ->
  cell_at (band_data self) i j = Some c ->
  exists level,
    0 <= level <= 3 /\
    mask_cell (fst (get level false self)) i j = Some 1 /\
    forall level', level' <> level ->
      mask_cell (fst (get level' false self)) i j = Some 0.
Proof.
  intros Hin Hc. exists (field_value c loc 2).
  pose proof (field_value_range c loc 2 ltac:(lia)) as Hr.
  split; [simpl in Hr; lia|]. split.
  - rewrite (getter_run get loc) by assumption. cbn [fst mask_cell].
    rewrite cell_at_np_map, Hc. cbn [option_map level_test].
    now rewrite Z.eqb_refl.
  - intros l Hl. rewrite (getter_run get loc) by assumption.
    cbn [fst mask_cell]. rewrite cell_at_np_map, Hc.
    cbn [option_map level_test].
    destruct (Z.eqb_spec (field_value c loc 2) l); [congruence|reflexivity].
Qed.

Lemma exact_levels_partition_witness :
  exists level,
    0 <= level <= 3 /\
    mask_cell (fst (LandsatMasker.get_cloud_mask level false
                      (Masker.init [[32768; 7]]))) 0 0 = Some 1 /\
    forall level', level' <> level ->
      mask_cell (fst (LandsatMasker.get_cloud_mask level' false
                        (Masker.init [[32768; 7]]))) 0 0 = Some 0.
Proof.
  apply (exact_levels_partition LandsatMasker.get_cloud_mask 14
           (Masker.init [[32768; 7]]) 0 0 32768);
    [simpl; auto | reflexivity].
Defined.

(** X6: the cumulative mask of a level is the union of the exact masks of
    the levels from it up to 3. *)
Theorem cumulative_is_union_of_exact (get : Z -> bool -> M (ndarray Z))
  (loc : Z) (self : masker) (conf : Z) (i j : nat) (c : Z) :
  In (get, loc) getter_locs ->
  cell_at (band_data self) i j = Some c ->
  (mask_cell (fst (get conf true self)) i j = Some 1
   <-> exists level,
         conf <= level <= 3 /\
         mask_cell (fst (get level false self)) i j = Some 1).
Proof.
  intros Hin Hc.
  pose proof (field_value_range c loc 2 ltac:(lia)) as Hr. simpl in Hr.
  assert (Hcell : forall l cum,
             mask_cell (fst (get l cum self)) i j = Some 1
             <-> level_test cum l (field_value c loc 2) = true).
  { intros l cum. rewrite (getter_run get loc) by assumption.
    cbn [fst mask_cell]. rewrite cell_at_np_map, Hc. cbn [option_map].
    destruct (level_test cum l (field_value c loc 2)); cbn [int_of_bool];
      split; intros H; (reflexivity || discriminate). }
  rewrite Hcell. cbn [level_test]. rewrite Z.leb_le. split.
  - intros Hle. exists (field_value c loc 2). split; [lia|].
    apply Hcell. cbn [level_test]. apply Z.eqb_refl.
  - intros [l [Hl Hm]]. apply Hcell in Hm. cbn [level_test] in Hm.
    apply Z.eqb_eq in Hm. lia.
Qed.

Lemma cumulative_is_union_of_exact_witness :
  mask_cell (fst (LandsatMasker.get_veg_mask 1 true
                    (Masker.init [[512; 0]]))) 0 0 = Some 1
  <-> exists level,
        1 <= level <= 3 /\
        mask_cell (fst (LandsatMasker.get_veg_mask level false
                          (Masker.init [[512; 0]]))) 0 0 = Some 1.
Proof.
  apply (cumulative_is_union_of_exact LandsatMasker.get_veg_mask 8
           (Masker.init [[512; 0]]) 1 0 0 512);
    [simpl; auto | reflexivity].
Defined.

(** X7: an exact condition getter returns the mask that the inherited
    [get_mask] returns for the width 2 at the getter's location. *)
Theorem getter_is_get_mask_width_2 (get : Z -> bool -> M (ndarray Z))
  (loc : Z) (self : masker) (conf : Z) :
  In (get, loc) getter_locs ->
  fst (get conf false self) = fst (Masker.get_mask loc 2 (PyInt conf) self).
Proof.
  intros Hin. pose proof (getter_locs_nonneg get loc Hin) as Hl.
  rewrite (getter_run get loc), get_mask_field by (assumption || lia).
  reflexivity.
Qed.

Lemma getter_is_get_mask_width_2_witness :
  fst (LandsatMasker.get_water_mask 3 false (Masker.init [[48; 64]; [16; 0]]))
  = fst (Masker.get_mask 4 2 (PyInt 3) (Masker.init [[48; 64]; [16; 0]])).
Proof.
  apply (getter_is_get_mask_width_2 LandsatMasker.get_water_mask 4
           (Masker.init [[48; 64]; [16; 0]]) 3).
  simpl; auto 10.
Defined.

(** ** Shape and values of the masks *)

Lemma shape_np_map {A B : Type} (f : A -> B) (a : ndarray A) :
  shape (np_map f a) = shape a.
Proof.
  unfold shape, np_map. rewrite map_map. apply map_ext.
  intros row. apply length_map.
Qed.

Lemma binary_cells_indicator (g : Z -> bool) (a : ndarray Z) :
  binary_cells (np_map (fun c => int_of_bool (g c)) a).
Proof.
  unfold binary_cells, np_map. apply Forall_map, Forall_forall.
  intros row _. apply Forall_map, Forall_forall. intros c _.
  destruct (g c); auto.
Qed.

Lemma get_mask_form (self : masker) (p w : Z) (v : pyval) :
  match fst (Masker.get_mask p w v self) with
  | Ok m => indicator_of (band_data self) (IntMask m)
  | Raise _ => True
  end.
Proof.
  unfold Masker.get_mask, bind, lift, get_band_data, ret.
  destruct (int_base2 (str_mul "1" w)) as [bitlen|]; [|exact I].
  destruct (match v with PyInt z => Ok z | PyStr s => int_base2 s end)
    as [value|]; [|exact I].
  unfold lshift. destruct (p <? 0); [exact I|]. cbn [fst indicator_of].
  exists (fun c => Z.land c (Z.shiftl bitlen p) =? Z.shiftl value p).
  unfold np.astype_int, np.equal, np.bitwise_and.
  now rewrite !np_map_np_map.
Qed.

Lemma private_get_mask_form (self : masker) (loc len v : Z) (cum : bool) :
  match fst (LandsatMasker.__get_mask loc len v cum self) with
  | Ok m => indicator_of (band_data self) (BoolMask m)
  | Raise _ => True
  end.
Proof.
  unfold LandsatMasker.__get_mask, bind, lift, lshift.
  destruct (loc <? 0) eqn:E; [exact I|].
  pose proof (landsat_get_mask_run self loc len v cum) as H.
  unfold LandsatMasker.__get_mask, bind, lift, lshift in H. rewrite E in H.
  rewrite H by (apply Z.ltb_ge; assumption). cbn [fst indicator_of].
  eexists. reflexivity.
Qed.

Lemma run_query_form (q : query) (self : masker) :
  match fst (run_query q self) with
  | Ok mk => indicator_of (band_data self) mk
  | Raise _ => True
  end.
Proof.
  destruct q as [p w v| | | | | | | |loc len lv cum|qual];
    cbn [run_query]; unfold bind at 1.
  - pose proof (get_mask_form self p w v) as H.
    destruct (Masker.get_mask p w v self) as [[m|e] s];
      [exact H | exact I].
  - unfold LandsatMasker.get_cloud_mask.
    rewrite landsat_getter_run by lia. cbn. eexists. reflexivity.
  - unfold LandsatMasker.get_cirrus_mask.
    rewrite landsat_getter_run by lia. cbn. eexists. reflexivity.
  - unfold LandsatMasker.get_veg_mask.
    rewrite landsat_getter_run by lia. cbn. eexists. reflexivity.
  - unfold LandsatMasker.get_water_mask.
    rewrite landsat_getter_run by lia. cbn. eexists. reflexivity.
  - unfold LandsatMasker.get_snow_mask.
    rewrite landsat_getter_run by lia. cbn. eexists. reflexivity.
  - unfold LandsatMasker.get_fill_mask.
    rewrite landsat_get_mask_run by lia. cbn. eexists. reflexivity.
  - rewrite get_multi_mask_run. cbn. eexists. reflexivity.
  - pose proof (private_get_mask_form self loc len lv cum) as H.
    destruct (LandsatMasker.__get_mask loc len lv cum self)
      as [[m|e] s]; [exact H | exact I].
  - unfold ModisMasker.get_qa_mask, bind.
    pose proof (get_mask_form self 0 2 (PyInt qual)) as H.
    destruct (Masker.get_mask 0 2 (PyInt qual) self) as [[m|e] s];
      [|exact I].
    cbn [fst indicator_of ret] in *. destruct H as [g ->].
    exists g. unfold np.astype_int_of_int. now rewrite np_map_np_map.
Qed.

(** X8: whenever a query returns a mask, the mask has the shape of
    [band_data]. *)
Theorem query_keeps_shape (q : query) (self : masker) (mk : mask) :
  fst (run_query q self) = Ok mk ->
  mask_shape mk = shape (band_data self).
Proof.
  intros H. pose proof (run_query_form q self) as F. rewrite H in F.
  destruct mk as [m|m]; destruct F as [g ->]; apply shape_np_map.
Qed.

Lemma query_keeps_shape_witness :
  mask_shape (IntMask [[1; 0; 0]; [0; 1; 0]])
  = shape (band_data (Masker.init [[49152; 1; 2]; [3; 49153; 16384]])).
Proof.
  apply (query_keeps_shape
           (Q_get_cloud_mask LandsatConfidence.high false)
           (Masker.init [[49152; 1; 2]; [3; 49153; 16384]])).
  reflexivity.
Defined.

(** X9: an int mask returned by a query holds only 0 and 1. *)
Theorem query_mask_is_binary (q : query) (self : masker) (m : ndarray Z) :
  fst (run_query q self) = Ok (IntMask m) -> binary_cells m.
Proof.
  intros H. pose proof (run_query_form q self) as F. rewrite H in F.
  destruct F as [g ->]. apply binary_cells_indicator.
Qed.

Lemma query_mask_is_binary_witness : binary_cells [[0; 1]; [1; 0]].
Proof.
  apply (query_mask_is_binary (Q_get_qa_mask ModisQuality.low)
           (Masker.init [[1; 2]; [6; 7]])).
  reflexivity.
Defined.

(** ** [get_multi_mask] in terms of the getters *)

Lemma some_int_of_bool_1 (b : bool) : Some (int_of_bool b) = Some 1 <-> b = true.
Proof. destruct b; cbn; split; intros H; (reflexivity || discriminate). Qed.

Lemma getter_cell_true (get : Z -> bool -> M (ndarray Z)) (loc : Z)
  (self : masker) (level : Z) (cum : bool) (i j : nat) (c : Z) :
  In (get, loc) getter_locs ->
  cell_at (band_data self) i j = Some c ->
  mask_cell (fst (get level cum self)) i j = Some 1
  <-> level_test cum level (field_value c loc 2) = true.
Proof.
  intros Hin Hc. rewrite (getter_run get loc) by assumption.
  cbn [fst mask_cell]. rewrite cell_at_np_map, Hc. cbn [option_map].
  apply some_int_of_bool_1.
Qed.

(** The loop of [get_multi_mask] unrolled, with the five two-bit tests. *)
Lemma get_multi_mask_two_bits (self : masker) cloud cloud_cum cirrus
  cirrus_cum snow snow_cum veg veg_cum water water_cum inclusive :
  LandsatMasker.get_multi_mask cloud cloud_cum cirrus cirrus_cum snow
    snow_cum veg veg_cum water water_cum inclusive self
  = (Ok (np_map
           (fun c =>
              int_of_bool
                (multi_cell inclusive c
                   (level_test veg_cum veg (field_value c 8 2))
                   (level_test snow_cum snow (field_value c 10 2))
                   (level_test cirrus_cum cirrus (field_value c 12 2))
                   (level_test cloud_cum cloud (field_value c 14 2))
                   (level_test water_cum water (field_value c 4 2))))
           (band_data self)), self).
Proof.
  rewrite get_multi_mask_run. f_equal. f_equal. apply np_map_ext. intros c.
  cbn [LandsatMasker.tasks fold_left task_cell].
  rewrite !landsat_cell_two_bits by lia.
  unfold multi_cell, combine, basic_cell. now destruct inclusive.
Qed.

Lemma multi_cell_at (self : masker) cloud cloud_cum cirrus cirrus_cum snow
  snow_cum veg veg_cum water water_cum inclusive (i j : nat) (c : Z) :
  cell_at (band_data self) i j = Some c ->
  mask_cell
    (fst (LandsatMasker.get_multi_mask cloud cloud_cum cirrus cirrus_cum snow
            snow_cum veg veg_cum water water_cum inclusive self)) i j
  = Some 1
  <-> multi_cell inclusive c
        (level_test veg_cum veg (field_value c 8 2))
        (level_test snow_cum snow (field_value c 10 2))
        (level_test cirrus_cum cirrus (field_value c 12 2))
        (level_test cloud_cum cloud (field_value c 14 2))
        (level_test water_cum water (field_value c 4 2)) = true.
Proof.
  intros Hc. rewrite get_multi_mask_two_bits. cbn [fst mask_cell].
  rewrite cell_at_np_map, Hc. cbn [option_map]. apply some_int_of_bool_1.
Qed.

Ltac getter_cells Hc :=
  rewrite (getter_cell_true LandsatMasker.get_cloud_mask 14)
    by (exact Hc || (simpl; auto 10));
  rewrite (getter_cell_true LandsatMasker.get_cirrus_mask 12)
    by (exact Hc || (simpl; auto 10));
  rewrite (getter_cell_true LandsatMasker.get_snow_mask 10)
    by (exact Hc || (simpl; auto 10));
  rewrite (getter_cell_true LandsatMasker.get_veg_mask 8)
    by (exact Hc || (simpl; auto 10));
  rewrite (getter_cell_true LandsatMasker.get_water_mask 4)
    by (exact Hc || (simpl; auto 10)).

(** X10: with [inclusive=False], [get_multi_mask] is 1 at a cell iff the
    cell is non-negative and each of the five getters, called with the
    level and flag given for its condition, is 1 there. *)
Theorem multi_mask_exclusive_is_and (self : masker) cloud cloud_cum cirrus
  cirrus_cum snow snow_cum veg veg_cum water water_cum (i j : nat) (c : Z) :
  cell_at (band_data self) i j = Some c ->
  mask_cell
    (fst (LandsatMasker.get_multi_mask cloud cloud_cum cirrus cirrus_cum snow
            snow_cum veg veg_cum water water_cum false self)) i j
  = Some 1
  <-> 0 <= c /\
      mask_cell (fst (LandsatMasker.get_cloud_mask cloud cloud_cum self)) i j
      = Some 1 /\
      mask_cell (fst (LandsatMasker.get_cirrus_mask cirrus cirrus_cum self))
        i j = Some 1 /\
      mask_cell (fst (LandsatMasker.get_snow_mask snow snow_cum self)) i j
      = Some 1 /\
      mask_cell (fst (LandsatMasker.get_veg_mask veg veg_cum self)) i j
      = Some 1 /\
      mask_cell (fst (LandsatMasker.get_water_mask water water_cum self)) i j
      = Some 1.
Proof.
  intros Hc. rewrite multi_cell_at by exact Hc. getter_cells Hc.
  unfold multi_cell. rewrite !andb_true_iff, Z.leb_le. tauto.
Qed.

Lemma multi_mask_exclusive_is_and_witness :
  mask_cell
    (fst (LandsatMasker.get_multi_mask 3 false 0 false 1 true 0 true 0 false
            false (Masker.init [[50176; 0]]))) 0 0
  = Some 1
  <-> 0 <= 50176 /\
      mask_cell (fst (LandsatMasker.get_cloud_mask 3 false
                        (Masker.init [[50176; 0]]))) 0 0 = Some 1 /\
      mask_cell (fst (LandsatMasker.get_cirrus_mask 0 false
                        (Masker.init [[50176; 0]]))) 0 0 = Some 1 /\
      mask_cell (fst (LandsatMasker.get_snow_mask 1 true
                        (Masker.init [[50176; 0]]))) 0 0 = Some 1 /\
      mask_cell (fst (LandsatMasker.get_veg_mask 0 true
                        (Masker.init [[50176; 0]]))) 0 0 = Some 1 /\
      mask_cell (fst (LandsatMasker.get_water_mask 0 false
                        (Masker.init [[50176; 0]]))) 0 0 = Some 1.
Proof.
  apply (multi_mask_exclusive_is_and (Masker.init [[50176; 0]])
           3 false 0 false 1 true 0 true 0 false 0 0 50176).
  reflexivity.
Defined.

(** X11: with [inclusive=True], [get_multi_mask] is 1 at a cell iff the
    cell is negative or at least one of the five getters, called with the
    level and flag given for its condition, is 1 there. *)
Theorem multi_mask_inclusive_is_or (self : masker) cloud cloud_cum cirrus
  cirrus_cum snow snow_cum veg veg_cum water water_cum (i j : nat) (c : Z) :
  cell_at (band_data self) i j = Some c ->
  mask_cell
    (fst (LandsatMasker.get_multi_mask cloud cloud_cum cirrus cirrus_cum snow
            snow_cum veg veg_cum water water_cum true self)) i j
  = Some 1
  <-> c < 0 \/
      mask_cell (fst (LandsatMasker.get_cloud_mask cloud cloud_cum self)) i j
      = Some 1 \/
      mask_cell (fst (LandsatMasker.get_cirrus_mask cirrus cirrus_cum self))
        i j = Some 1 \/
      mask_cell (fst (LandsatMasker.get_snow_mask snow snow_cum self)) i j
      = Some 1 \/
      mask_cell (fst (LandsatMasker.get_veg_mask veg veg_cum self)) i j
      = Some 1 \/
      mask_cell (fst (LandsatMasker.get_water_mask water water_cum self)) i j
      = Some 1.
Proof.
  intros Hc. rewrite multi_cell_at by exact Hc. getter_cells Hc.
  unfold multi_cell. rewrite !orb_true_iff, Z.ltb_lt. tauto.
Qed.

Lemma multi_mask_inclusive_is_or_witness :
  mask_cell
    (fst (LandsatMasker.get_multi_mask 3 false 3 false 3 false 3 false 2 true
            true (Masker.init [[7; 32]]))) 0 1
  = Some 1
  <-> 32 < 0 \/
      mask_cell (fst (LandsatMasker.get_cloud_mask 3 false
                        (Masker.init [[7; 32]]))) 0 1 = Some 1 \/
      mask_cell (fst (LandsatMasker.get_cirrus_mask 3 false
                        (Masker.init [[7; 32]]))) 0 1 = Some 1 \/
      mask_cell (fst (LandsatMasker.get_snow_mask 3 false
                        (Masker.init [[7; 32]]))) 0 1 = Some 1 \/
      mask_cell (fst (LandsatMasker.get_veg_mask 3 false
                        (Masker.init [[7; 32]]))) 0 1 = Some 1 \/
      mask_cell (fst (LandsatMasker.get_water_mask 2 true
                        (Masker.init [[7; 32]]))) 0 1 = Some 1.
Proof.
  apply (multi_mask_inclusive_is_or (Masker.init [[7; 32]])
           3 false 3 false 3 false 3 false 2 true 0 1 32).
  reflexivity.
Defined.

(** ** Conditions left at the sentinel in [get_multi_mask] *)

Lemma level_test_sentinel (c loc : Z) :
  level_test false LandsatConfidence.none (field_value c loc 2) = false.
Proof.
  pose proof (field_value_range c loc 2 ltac:(lia)) as Hr.
  unfold level_test, LandsatConfidence.none. apply Z.eqb_neq. lia.
Qed.

Lemma np_map_ext_nonneg {B : Type} (f g : Z -> B) (a : ndarray Z) :
  nonneg_cells a -> (forall c, 0 <= c -> f c = g c) ->
  np_map f a = np_map g a.
Proof.
  intros Ha Hfg. unfold np_map. apply map_ext_Forall.
  eapply Forall_impl; [|exact Ha]. intros row Hrow. cbv beta in Hrow.
  apply map_ext_Forall. eapply Forall_impl; [|exact Hrow]. exact Hfg.
Qed.

(** X12: with [inclusive=False], as soon as one condition is left at its
    default (level [none], not cumulative) the result is the all-zero mask,
    whatever the array and the other conditions. *)
Theorem exclusive_with_unset_condition (self : masker) cloud cloud_cum cirrus
  cirrus_cum snow snow_cum veg veg_cum water water_cum :
  (cloud = LandsatConfidence.none /\ cloud_cum = false) \/
  (cirrus = LandsatConfidence.none /\ cirrus_cum = false) \/
  (snow = LandsatConfidence.none /\ snow_cum = false) \/
  (veg = LandsatConfidence.none /\ veg_cum = false) \/
  (water = LandsatConfidence.none /\ water_cum = false) ->
  fst (LandsatMasker.get_multi_mask cloud cloud_cum cirrus cirrus_cum snow
         snow_cum veg veg_cum water water_cum false self)
  = Ok (np_map (fun _ => 0) (band_data self)).
Proof.
  intros H. rewrite get_multi_mask_two_bits. cbn [fst]. f_equal.
  apply np_map_ext. intros c. unfold multi_cell.
  destruct H as [[-> ->]|[[-> ->]|[[-> ->]|[[-> ->]|[-> ->]]]]];
    rewrite level_test_sentinel; now rewrite ?andb_false_r.
Qed.

Lemma exclusive_with_unset_condition_witness :
  fst (LandsatMasker.get_multi_mask 3 false LandsatConfidence.none false
         1 true 0 true 0 true false (Masker.init [[49152; 50176]]))
  = Ok (np_map (fun _ => 0) [[49152; 50176]]).
Proof.
  apply (exclusive_with_unset_condition (Masker.init [[49152; 50176]])
           3 false LandsatConfidence.none false 1 true 0 true 0 true).
  right. left. split; reflexivity.
Defined.

(** X13: on an array without negative cells and with [inclusive=True], a
    single requested condition with the four others left at their defaults
    gives the mask of that condition's getter. *)
Theorem inclusive_single_condition (self : masker) (conf : Z) (cum : bool) :
  nonneg_cells (band_data self) ->
  let none := LandsatConfidence.none in
  fst (LandsatMasker.get_multi_mask conf cum none false none false
         none false none false true self)
  = fst (LandsatMasker.get_cloud_mask conf cum self) /\
  fst (LandsatMasker.get_multi_mask none false conf cum none false
         none false none false true self)
  = fst (LandsatMasker.get_cirrus_mask conf cum self) /\
  fst (LandsatMasker.get_multi_mask none false none false conf cum
         none false none false true self)
  = fst (LandsatMasker.get_snow_mask conf cum self) /\
  fst (LandsatMasker.get_multi_mask none false none false none false
         conf cum none false true self)
  = fst (LandsatMasker.get_veg_mask conf cum self) /\
  fst (LandsatMasker.get_multi_mask none false none false none false
         none false conf cum true self)
  = fst (LandsatMasker.get_water_mask conf cum self).
Proof.
  intros Hnn none.
  rewrite (getter_run LandsatMasker.get_cloud_mask 14) by (simpl; auto 10).
  rewrite (getter_run LandsatMasker.get_cirrus_mask 12) by (simpl; auto 10).
  rewrite (getter_run LandsatMasker.get_snow_mask 10) by (simpl; auto 10).
  rewrite (getter_run LandsatMasker.get_veg_mask 8) by (simpl; auto 10).
  rewrite (getter_run LandsatMasker.get_water_mask 4) by (simpl; auto 10).
  rewrite !get_multi_mask_two_bits. cbn [fst].
  repeat split; f_equal; apply np_map_ext_nonneg; try assumption;
    intros c Hc; unfold multi_cell, none;
    rewrite !level_test_sentinel;
    (destruct (Z.ltb_spec c 0) as [?|_]; [lia|]);
    cbn [orb]; now rewrite ?orb_false_r.
Qed.

Lemma inclusive_single_condition_witness :
  let self := Masker.init [[49152; 4096]; [1024; 0]] in
  let none := LandsatConfidence.none in
  fst (LandsatMasker.get_multi_mask 2 true none false none false
         none false none false true self)
  = fst (LandsatMasker.get_cloud_mask 2 true self) /\
  fst (LandsatMasker.get_multi_mask none false 2 true none false
         none false none false true self)
  = fst (LandsatMasker.get_cirrus_mask 2 true self) /\
  fst (LandsatMasker.get_multi_mask none false none false 2 true
         none false none false true self)
  = fst (LandsatMasker.get_snow_mask 2 true self) /\
  fst (LandsatMasker.get_multi_mask none false none false none false
         2 true none false true self)
  = fst (LandsatMasker.get_veg_mask 2 true self) /\
  fst (LandsatMasker.get_multi_mask none false none false none false
         none false 2 true true self)
  = fst (LandsatMasker.get_water_mask 2 true self).
Proof.
  apply (inclusive_single_condition
           (Masker.init [[49152; 4096]; [1024; 0]]) 2 true).
  unfold nonneg_cells. simpl. repeat constructor; lia.
Defined.

(** ** MODIS quality masks *)

Lemma field_value_low_bits (c w : Z) :
  0 <= w -> field_value c 0 w = c mod 2 ^ w.
Proof.
  intros Hw. unfold field_value. rewrite Z.shiftr_0_r.
  now apply Z.land_ones.
Qed.

Lemma get_qa_mask_run (self : masker) (q : Z) :
  ModisMasker.get_qa_mask q self
  = (Ok (np_map (fun c => int_of_bool (c mod 4 =? q)) (band_data self)),
     self).
Proof.
  unfold ModisMasker.get_qa_mask, bind. rewrite get_mask_run by lia.
  unfold ret, np.astype_int_of_int. rewrite np_map_np_map.
  f_equal. f_equal. apply np_map_ext. intros c.
  rewrite get_mask_cell_field, field_value_low_bits by lia. reflexivity.
Qed.

(** X14: [get_qa_mask(quality)] never raises and is 1 at a cell iff the
    two low bits of the cell, [cell mod 4], equal [quality]; the mask keeps
    the shape of the array. *)
Theorem get_qa_mask_low_two_bits (self : masker) (q : Z) (i j : nat) :
  exists m,
    fst (ModisMasker.get_qa_mask q self) = Ok m /\
    cell_at m i j
    = option_map (fun c => int_of_bool (c mod 4 =? q))
        (cell_at (band_data self) i j).
Proof.
  rewrite get_qa_mask_run. cbn [fst]. eexists. split; [reflexivity|].
  apply cell_at_np_map.
Qed.

(** X15: the masks of the four MODIS quality levels partition the cells:
    at every cell exactly one level in 0..3 gives 1 and every other int
    level gives 0. *)
Theorem modis_levels_partition (self : masker) (i j : nat) (c : Z) :
  cell_at (band_data self) i j = Some c ->
  exists q,
    In q [ModisQuality.high; ModisQuality.medium; ModisQuality.low;
          ModisQuality.low_cloud] /\
    mask_cell (fst (ModisMasker.get_qa_mask q self)) i j = Some 1 /\
    forall q', q' <> q ->
      mask_cell (fst (ModisMasker.get_qa_mask q' self)) i j = Some 0.
Proof.
  intros Hc. exists (c mod 4).
  pose proof (Z.mod_pos_bound c 4 ltac:(lia)) as Hr.
  split; [|split].
  - unfold ModisQuality.high, ModisQuality.medium, ModisQuality.low,
      ModisQuality.low_cloud. cbn [In]. lia.
  - rewrite get_qa_mask_run. cbn [fst mask_cell].
    rewrite cell_at_np_map, Hc. cbn [option_map]. now rewrite Z.eqb_refl.
  - intros q' Hq. rewrite get_qa_mask_run. cbn [fst mask_cell].
    rewrite cell_at_np_map, Hc. cbn [option_map].
    destruct (Z.eqb_spec (c mod 4) q'); [congruence|reflexivity].
Qed.

Lemma modis_levels_partition_witness :
  exists q,
    In q [ModisQuality.high; ModisQuality.medium; ModisQuality.low;
          ModisQuality.low_cloud] /\
    mask_cell (fst (ModisMasker.get_qa_mask q (Masker.init [[5; 6]; [8; 3]])))
      1 1 = Some 1 /\
    forall q', q' <> q ->
      mask_cell
        (fst (ModisMasker.get_qa_mask q' (Masker.init [[5; 6]; [8; 3]])))
        1 1 = Some 0.
Proof.
  apply (modis_levels_partition (Masker.init [[5; 6]; [8; 3]]) 1 1 3).
  reflexivity.
Defined.

(** ** Loading an array *)

(** X16: after [load_data(array)] every query answers for [array] alone,
    whatever the object held before, and the object is the one that
    [Masker(array)] builds ([file_path] is [None]). *)
Theorem load_data_then_query (array : ndarray Z) (q : query) (self : masker) :
  (_ <- Masker.load_data array ;; run_query q) self
  = (fst (run_query q (Masker.init array)), Masker.init array).
Proof.
  unfold bind, Masker.load_data, set_attrs. fold (Masker.init array).
  pose proof (readonly_run_query q (Masker.init array)) as H.
  destruct (run_query q (Masker.init array)) as [[m|e] s];
    cbn [fst snd] in *; now subst s.
Qed.

(** ** The command line *)

Lemma is_str_true (o : option string) (s : string) :
  is_str o s = true <-> o = Some s.
Proof.
  destruct o as [s'|]; cbn [is_str].
  - rewrite String.eqb_eq. split; congruence.
  - split; discriminate.
Qed.

Lemma dict_get_has_key {A : Type} (d : list (string * A)) (k : option string) :
  (has_key d k = true /\ exists v, dict_get d k = Ok v) \/
  (has_key d k = false /\ dict_get d k = Raise KeyError).
Proof.
  unfold has_key. induction d as [|[k' v] d IH]; [right; split; reflexivity|].
  cbn [map fst existsb dict_get]. destruct k as [s|].
  - cbn [is_str]. destruct (String.eqb s k').
    + left. split; [reflexivity|]. now exists v.
    + exact IH.
  - right. split; [|reflexivity].
    cbn [is_str orb]. clear. induction d as [|[? ?] d IH']; [reflexivity|].
    exact IH'.
Qed.

Lemma known_target_loc (o : option string) :
  (known_target o = true /\ exists loc, target_loc o = Some loc) \/
  (known_target o = false /\ target_loc o = None).
Proof.
  unfold known_target, landsat_targets, target_loc. cbn [existsb].
  destruct (is_str o "cloud"), (is_str o "cirrus"), (is_str o "water"),
    (is_str o "vegetation"), (is_str o "snow"); cbn [orb];
    ((left; split; [reflexivity | eexists; reflexivity])
     || (right; split; reflexivity)).
Qed.

(** For a known target, [main] calls the getter of the target's location,
    not cumulative, on the object built from the input. *)
Lemma main_landsat_getter (a : args) (loaded : ndarray Z) (loc v : Z) :
  is_str (source a) "landsat" = true ->
  target_loc (target a) = Some loc ->
  dict_get conf_value (confidence a) = Ok v ->
  exists get,
    In (get, loc) getter_locs /\
    main a loaded = on_input (input a) loaded (get v false).
Proof.
  intros Hs Ht Hv. unfold main. rewrite Hs, Hv. unfold target_loc in Ht.
  destruct (is_str (target a) "cloud");
    [injection Ht as <-; eexists; split; [|reflexivity]; simpl; auto 10|].
  destruct (is_str (target a) "cirrus");
    [injection Ht as <-; eexists; split; [|reflexivity]; simpl; auto 10|].
  destruct (is_str (target a) "water");
    [injection Ht as <-; eexists; split; [|reflexivity]; simpl; auto 10|].
  destruct (is_str (target a) "vegetation");
    [injection Ht as <-; eexists; split; [|reflexivity]; simpl; auto 10|].
  destruct (is_str (target a) "snow");
    [injection Ht as <-; eexists; split; [|reflexivity]; simpl; auto 10|].
  discriminate.
Qed.

Lemma has_input_path (a : args) :
  has_input a = true -> exists path, input a = Some path.
Proof.
  unfold has_input. destruct (input a) as [path|]; [|discriminate].
  intros _. now exists path.
Qed.

Lemma modis_is_not_landsat (o : option string) :
  is_str o "modis" = true -> is_str o "landsat" = false.
Proof. intros H. apply is_str_true in H. now subst o. Qed.

(** X17: with an input path, for the source landsat, a target among the
    five names and a confidence name of [conf_value], [main] hands to
    [save_tif] the exact (never the cumulative) mask of the target's
    two-bit field: 1 where the two bits at the target's location equal the
    confidence level. *)
Theorem main_landsat_mask (a : args) (loaded : ndarray Z) (loc v : Z) :
  has_input a = true ->
  is_str (source a) "landsat" = true ->
  target_loc (target a) = Some loc ->
  dict_get conf_value (confidence a) = Ok v ->
  main a loaded
  = Ok (np_map (fun c => int_of_bool (field_value c loc 2 =? v)) loaded).
Proof.
  intros Hi Hs Ht Hv. destruct (has_input_path a Hi) as [path Hp].
  destruct (main_landsat_getter a loaded loc v Hs Ht Hv) as [get [Hin ->]].
  rewrite Hp. cbn [on_input]. now rewrite (getter_run get loc).
Qed.

Lemma main_landsat_mask_witness :
  main (mk_args (Some "landsat") (Some "LC8_BQA.TIF") (Some "out.tif")
          (Some "medium") (Some "cirrus") None) [[8192; 12288]; [4096; 0]]
  = Ok (np_map (fun c => int_of_bool (field_value c 12 2 =? 2))
          [[8192; 12288]; [4096; 0]]).
Proof.
  apply (main_landsat_mask
           (mk_args (Some "landsat") (Some "LC8_BQA.TIF") (Some "out.tif")
              (Some "medium") (Some "cirrus") None)
           [[8192; 12288]; [4096; 0]] 12 2); reflexivity.
Defined.

(** X18: with an input path, for the source modis and a quality name of
    [quality_value], [main] hands to [save_tif] the mask that is 1 where
    [cell mod 4] equals the quality level; target and confidence are not
    looked at. *)
Theorem main_modis_mask (a : args) (loaded : ndarray Z) (q : Z) :
  has_input a = true ->
  is_str (source a) "modis" = true ->
  dict_get quality_value (quality a) = Ok q ->
  main a loaded
  = Ok (np_map (fun c => int_of_bool (c mod 4 =? q)) loaded).
Proof.
  intros Hi Hs Hq. destruct (has_input_path a Hi) as [path Hp].
  unfold main. rewrite (modis_is_not_landsat _ Hs), Hs, Hq, Hp.
  cbn [on_input]. now rewrite get_qa_mask_run.
Qed.

Lemma main_modis_mask_witness :
  main (mk_args (Some "modis") (Some "MOD09.hdf") (Some "out.tif")
          None None (Some "low_cloud")) [[3; 4]; [7; 2]]
  = Ok (np_map (fun c => int_of_bool (c mod 4 =? 3)) [[3; 4]; [7; 2]]).
Proof.
  apply (main_modis_mask
           (mk_args (Some "modis") (Some "MOD09.hdf") (Some "out.tif")
              None None (Some "low_cloud")) [[3; 4]; [7; 2]] 3); reflexivity.
Defined.

Lemma on_input_ok {A : Type} (o : option string) (loaded : ndarray Z)
  (method : M A) (x : A) :
  fst (method (Masker.init loaded)) = Ok x ->
  (exists y, on_input o loaded method = Ok y)
  <-> (exists path, o = Some path).
Proof.
  intros Hm. destruct o as [path|]; cbn [on_input].
  - split; intros _; [now exists path | now exists x].
  - split; intros [y Hy]; discriminate.
Qed.

(** X19: [main] gets a mask to save exactly when an input path is given
    and either the source is landsat with a known target and a confidence
    name of [conf_value], or the source is modis with a quality name of
    [quality_value]; with any other arguments it raises. *)
Theorem main_returns_iff (a : args) (loaded : ndarray Z) :
  (exists m, main a loaded = Ok m) <-> main_ok a = true.
Proof.
  assert (Hin : forall {A} (method : M A) (x : A),
             fst (method (Masker.init loaded)) = Ok x ->
             (exists y, on_input (input a) loaded method = Ok y)
             <-> has_input a = true).
  { intros A method x Hm. rewrite (on_input_ok _ _ _ x Hm).
    unfold has_input. destruct (input a) as [path|].
    - split; [reflexivity | intros _; now exists path].
    - split; [intros [? ?]|]; discriminate. }
  unfold main_ok.
  destruct (is_str (source a) "landsat") eqn:Hs.
  - assert (Hm : is_str (source a) "modis" = false).
    { apply is_str_true in Hs. now rewrite Hs. }
    rewrite Hm. cbn [andb orb]. rewrite orb_false_r.
    destruct (known_target_loc (target a)) as [[Hk [loc Hl]]|[Hk Hl]];
      rewrite Hk; cbn [andb].
    + destruct (dict_get_has_key conf_value (confidence a))
        as [[Hh [v Hv]]|[Hh Hv]]; rewrite Hh.
      * rewrite andb_true_r.
        destruct (main_landsat_getter a loaded loc v Hs Hl Hv)
          as [get [Hg ->]].
        eapply Hin. now rewrite (getter_run get loc).
      * rewrite andb_false_r. split; [|discriminate]. intros [m Hm'].
        unfold main in Hm'. rewrite Hs, Hv in Hm'.
        repeat match type of Hm' with
               | context [if ?b then _ else _] => destruct b
               end; discriminate.
    + rewrite andb_false_r. split; [|discriminate]. intros [m Hm'].
      unfold known_target, landsat_targets in Hk. cbn [existsb] in Hk.
      repeat (apply orb_false_elim in Hk; destruct Hk as [? Hk]).
      unfold main in Hm'. rewrite Hs in Hm'.
      repeat match goal with
             | H : is_str _ _ = false |- _ => rewrite H in Hm'; clear H
             end.
      discriminate.
  - cbn [andb orb]. unfold main. rewrite Hs.
    destruct (is_str (source a) "modis") eqn:Hm; cbn [andb].
    + destruct (dict_get_has_key quality_value (quality a))
        as [[Hh [v Hv]]|[Hh Hv]]; rewrite Hh, Hv.
      * rewrite andb_true_r. eapply Hin. now rewrite get_qa_mask_run.
      * rewrite andb_false_r. split; [intros [m H]|]; discriminate.
    + rewrite andb_false_r. split; [intros [m H]|]; discriminate.
Qed.

(** X20: [main] raises [KeyError] when the level name is not a key of its
    table: for landsat with a known target and a confidence that is missing
    or not in [conf_value], and for modis with a quality that is missing or
    not in [quality_value]. *)
Theorem main_key_error (a : args) (loaded : ndarray Z) :
  (is_str (source a) "landsat" = true /\ known_target (target a) = true /\
   has_key conf_value (confidence a) = false) \/
  (is_str (source a) "modis" = true /\
   has_key quality_value (quality a) = false) ->
  main a loaded = Raise KeyError.
Proof.
  intros [[Hs [Hk Hh]]|[Hs Hh]].
  - destruct (dict_get_has_key conf_value (confidence a))
      as [[Hh' _]|[_ Hv]]; [congruence|].
    unfold known_target, landsat_targets in Hk. cbn [existsb] in Hk.
    unfold main. rewrite Hs, Hv.
    repeat match goal with
           | |- context [if ?b then _ else _] => destruct b
           end; try reflexivity.
    discriminate.
  - destruct (dict_get_has_key quality_value (quality a))
      as [[Hh' _]|[_ Hv]]; [congruence|].
    unfold main. now rewrite (modis_is_not_landsat _ Hs), Hs, Hv.
Qed.

Lemma main_key_error_witness :
  main (mk_args (Some "landsat") (Some "LC8_BQA.TIF") (Some "out.tif")
          None (Some "snow") None) [[1024]]
  = Raise KeyError.
Proof.
  apply (main_key_error
           (mk_args (Some "landsat") (Some "LC8_BQA.TIF") (Some "out.tif")
              None (Some "snow") None) [[1024]]).
  left. repeat split; reflexivity.
Defined.

(** ** Levels outside 0..3, and the fill mask *)

Lemma field_value_2_range (c loc : Z) : 0 <= field_value c loc 2 <= 3.
Proof.
  pose proof (field_value_range c loc 2 ltac:(lia)) as H. simpl in H. lia.
Qed.

(** X21: for each condition getter, a cumulative query at a level of 0 or
    less selects every cell. *)
Theorem cumulative_low_level_selects_all (get : Z -> bool -> M (ndarray Z))
  (loc : Z) (self : masker) (conf : Z) :
  In (get, loc) getter_locs ->
  conf <= 0 ->
  fst (get conf true self) = Ok (np_map (fun _ => 1) (band_data self)).
Proof.
  intros Hin Hc. rewrite (getter_run get loc) by assumption. cbn [fst].
  f_equal. apply np_map_ext. intros c.
  pose proof (field_value_2_range c loc) as Hr. unfold level_test.
  destruct (Z.leb_spec conf (field_value c loc 2)); [reflexivity|lia].
Qed.

Lemma cumulative_low_level_selects_all_witness :
  fst (LandsatMasker.get_cirrus_mask LandsatConfidence.undefined true
         (Masker.init [[4096; 7]]))
  = Ok (np_map (fun _ => 1) [[4096; 7]]).
Proof.
  apply (cumulative_low_level_selects_all LandsatMasker.get_cirrus_mask 12
           (Masker.init [[4096; 7]]) LandsatConfidence.undefined);
    [simpl; auto | unfold LandsatConfidence.undefined; lia].
Defined.

(** X22: for each condition getter, a level above 3 selects no cell in
    either mode, and a negative level selects no cell in exact mode. *)
Theorem level_out_of_range_selects_none (get : Z -> bool -> M (ndarray Z))
  (loc : Z) (self : masker) (conf : Z) (cum : bool) :
  In (get, loc) getter_locs ->
  3 < conf \/ (conf < 0 /\ cum = false) ->
  fst (get conf cum self) = Ok (np_map (fun _ => 0) (band_data self)).
Proof.
  intros Hin Hc. rewrite (getter_run get loc) by assumption. cbn [fst].
  f_equal. apply np_map_ext. intros c.
  pose proof (field_value_2_range c loc) as Hr. unfold level_test.
  destruct Hc as [Hc|[Hc ->]].
  - destruct cum.
    + destruct (Z.leb_spec conf (field_value c loc 2)); [lia|reflexivity].
    + destruct (Z.eqb_spec (field_value c loc 2) conf); [lia|reflexivity].
  - destruct (Z.eqb_spec (field_value c loc 2) conf); [lia|reflexivity].
Qed.

Lemma level_out_of_range_selects_none_witness :
  fst (LandsatMasker.get_veg_mask 4 true (Masker.init [[768; 1023]]))
  = Ok (np_map (fun _ => 0) [[768; 1023]]).
Proof.
  apply (level_out_of_range_selects_none LandsatMasker.get_veg_mask 8
           (Masker.init [[768; 1023]]) 4 true);
    [simpl; auto 10 | left; lia].
Defined.

(** X23: [get_fill_mask()] returns booleans, and converted to int it is the
    mask that the inherited [get_mask(0, 1, 1)] returns: for the width 1
    the two extraction methods agree. *)
Theorem get_fill_mask_is_get_mask (self : masker) :
  exists m,
    fst (LandsatMasker.get_fill_mask self) = Ok m /\
    fst (Masker.get_mask 0 1 (PyInt 1) self) = Ok (np.astype_int m).
Proof.
  unfold LandsatMasker.get_fill_mask.
  rewrite landsat_get_mask_run, get_mask_run by lia. cbn [fst].
  eexists. split; [reflexivity|]. f_equal.
  unfold np.astype_int. rewrite np_map_np_map. reflexivity.
Qed.

(** X24: the queries on fixed fields (the five getters, [get_fill_mask],
    [get_multi_mask], [get_qa_mask]) return a mask for every level, flag
    and array: only [get_mask], whose field is an argument, can raise. *)
Theorem fixed_field_queries_never_raise (q : query) (self : masker) :
  fixed_field q = true ->
  exists mk, fst (run_query q self) = Ok mk.
Proof.
  destruct q as [p w v| | | | | | | |loc len lv cum|qual];
    cbn [fixed_field]; try discriminate; intros _;
    cbn [run_query]; unfold bind at 1.
  - unfold LandsatMasker.get_cloud_mask.
    rewrite landsat_getter_run by lia. eexists. reflexivity.
  - unfold LandsatMasker.get_cirrus_mask.
    rewrite landsat_getter_run by lia. eexists. reflexivity.
  - unfold LandsatMasker.get_veg_mask.
    rewrite landsat_getter_run by lia. eexists. reflexivity.
  - unfold LandsatMasker.get_water_mask.
    rewrite landsat_getter_run by lia. eexists. reflexivity.
  - unfold LandsatMasker.get_snow_mask.
    rewrite landsat_getter_run by lia. eexists. reflexivity.
  - unfold LandsatMasker.get_fill_mask.
    rewrite landsat_get_mask_run by lia. eexists. reflexivity.
  - rewrite get_multi_mask_run. eexists. reflexivity.
  - rewrite get_qa_mask_run. eexists. reflexivity.
Qed.

Lemma fixed_field_queries_never_raise_witness :
  exists mk,
    fst (run_query
           (Q_get_multi_mask 3 true (-7) false 9 true 0 false 2 true true)
           (Masker.init [[]; []]))
    = Ok mk.
Proof.
  apply (fixed_field_queries_never_raise
           (Q_get_multi_mask 3 true (-7) false 9 true 0 false 2 true true)
           (Masker.init [[]; []])).
  reflexivity.
Defined.
